(** * DartEcommerce: the data-access layer and the route handlers

    A shallow embedding of [server/storage.ts] (class [DatabaseStorage]),
    of the route handlers of [registerRoutes] and of the table declarations
    of [shared/schema.ts], followed by the properties of the design
    specification that concern them.

    Conventions of the embedding.
    - A table is the list of its rows in storage order; the [users] table,
      whose primary key is the target of the upsert, is a finite map from
      the identity to the row.
    - A nullable column is an [option]; a key that may be left out of an
      insert or update payload is an [option] as well, so a nullable column
      of a payload is an [option (option _)].
    - The id of a [serial] column is the next value of the sequence of its
      table. The sequences run ahead of the ids stored, rows being inserted
      through these statements only, so the primary key on such an id is
      never violated and is not checked; the composite key of [favorites]
      and the unique e-mail address of [users] are.
    - Integers and texts are unbounded here, whereas an [integer] column
      holds four bytes and a [decimal(10, 2)] column a number that it may
      round or refuse. A property that depends on a value being stored, or
      compared with a column, states that the value is one the column takes
      as it is (module [Pg]).
    - The store holds the tables the properties below reach: users,
      products, favorites, cart items and seller applications.
    - [timestamp] values and [new Date()] are integers, handed to the
      operation that reads the clock as its argument [now].
    - An [async] method is a function from the store to an outcome and the
      store it leaves; a rejected promise is the outcome [inl e]. There is
      no transaction: what a method wrote before it threw stays written. *)

From Stdlib Require Import ZArith String.
From stdpp Require Import base option list sorting strings gmap fin_maps.

Local Open Scope string_scope.
Local Open Scope list_scope.

(** ** JavaScript operators the storage layer relies on *)

Module Js.

(** [x || d] on a number that may be [null] or [undefined]: the right
    operand is taken when the left one is falsy, and [0] is falsy. *)
Definition or_num (x : option Z) (d : Z) : Z :=
  match x with
  | None => d
  | Some z => if decide (z = 0%Z) then d else z
  end.

(** [if (x)] on an optional number. *)
Definition truthy (x : option Z) : bool :=
  match x with
  | None => false
  | Some z => bool_decide (z ≠ 0%Z)
  end.

(** [const [x] = rows]: the first row, [undefined] when there is none. *)
Definition first {A} (rows : list A) : option A := head rows.

End Js.

(** ** shared/schema.ts: the rows and the insert payloads *)

Module User.
Record t := mk {
  id : string;
  email : option string;
  firstName : option string;
  lastName : option string;
  profileImageUrl : option string;
  role : string;
  isApproved : option bool;
  createdAt : option Z;
  updatedAt : option Z
}.
End User.

Module UpsertUser.
Record t := mk {
  id : string;
  email : option (option string);
  firstName : option (option string);
  lastName : option (option string);
  profileImageUrl : option (option string);
  role : option string;
  isApproved : option (option bool);
  createdAt : option (option Z);
  updatedAt : option (option Z)
}.
End UpsertUser.

Module Product.
Record t := mk {
  id : Z;
  name : string;
  description : string;
  price : string;
  imageUrl : string;
  sellerId : string;
  categoryId : Z;
  isApproved : option bool;
  favoriteCount : option Z;
  createdAt : option Z;
  updatedAt : option Z
}.

Definition with_favoriteCount (c : option Z) (p : t) : t :=
  mk (id p) (name p) (description p) (price p) (imageUrl p) (sellerId p)
     (categoryId p) (isApproved p) c (createdAt p) (updatedAt p).
End Product.

(** [InsertProduct] as the callers build it: [insertProductSchema] omits
    [id], [createdAt] and [updatedAt], which come from the column defaults. *)
Module InsertProduct.
Record t := mk {
  name : string;
  description : string;
  price : string;
  imageUrl : string;
  sellerId : string;
  categoryId : Z;
  isApproved : option (option bool);
  favoriteCount : option (option Z)
}.
End InsertProduct.

Module Favorite.
Record t := mk {
  id : Z;
  userId : string;
  productId : Z;
  createdAt : option Z
}.
End Favorite.

Module InsertFavorite.
Record t := mk {
  userId : string;
  productId : Z
}.
End InsertFavorite.

Module CartItem.
Record t := mk {
  id : Z;
  userId : string;
  productId : Z;
  quantity : option Z;
  createdAt : option Z
}.

Definition with_quantity (q : option Z) (c : t) : t :=
  mk (id c) (userId c) (productId c) q (createdAt c).
End CartItem.

Module InsertCartItem.
Record t := mk {
  userId : string;
  productId : Z;
  quantity : option (option Z)
}.
End InsertCartItem.

Module SellerApplication.
Record t := mk {
  id : Z;
  userId : string;
  email : string;
  whatsapp : string;
  paymentInfo : string;
  status : option string;
  createdAt : option Z
}.

Definition with_status (st : option string) (a : t) : t :=
  mk (id a) (userId a) (email a) (whatsapp a) (paymentInfo a) st (createdAt a).
End SellerApplication.

(** ** The database: store, failures and statements *)

Module Db.

(** What a rejected promise carries. *)
Inductive exn :=
  | UniqueViolation (constraint : string)
  | NotNullViolation (column : string)
  | TypeError (message : string)
  | ZodError.

Record Store := mkStore {
  users : gmap string User.t;
  products : list Product.t;
  favorites : list Favorite.t;
  cartItems : list CartItem.t;
  sellerApplications : list SellerApplication.t;
  products_id_seq : Z;
  favorites_id_seq : Z;
  cart_items_id_seq : Z
}.

Definition set_users (f : gmap string User.t → gmap string User.t) (s : Store) : Store :=
  mkStore (f (users s)) (products s) (favorites s) (cartItems s)
          (sellerApplications s) (products_id_seq s) (favorites_id_seq s)
          (cart_items_id_seq s).

Definition set_products (f : list Product.t → list Product.t) (s : Store) : Store :=
  mkStore (users s) (f (products s)) (favorites s) (cartItems s)
          (sellerApplications s) (products_id_seq s) (favorites_id_seq s)
          (cart_items_id_seq s).

Definition set_favorites (f : list Favorite.t → list Favorite.t) (s : Store) : Store :=
  mkStore (users s) (products s) (f (favorites s)) (cartItems s)
          (sellerApplications s) (products_id_seq s) (favorites_id_seq s)
          (cart_items_id_seq s).

Definition set_cartItems (f : list CartItem.t → list CartItem.t) (s : Store) : Store :=
  mkStore (users s) (products s) (favorites s) (f (cartItems s))
          (sellerApplications s) (products_id_seq s) (favorites_id_seq s)
          (cart_items_id_seq s).

Definition set_sellerApplications
    (f : list SellerApplication.t → list SellerApplication.t) (s : Store) : Store :=
  mkStore (users s) (products s) (favorites s) (cartItems s)
          (f (sellerApplications s)) (products_id_seq s) (favorites_id_seq s)
          (cart_items_id_seq s).

Definition set_products_id_seq (n : Z) (s : Store) : Store :=
  mkStore (users s) (products s) (favorites s) (cartItems s)
          (sellerApplications s) n (favorites_id_seq s) (cart_items_id_seq s).

Definition set_favorites_id_seq (n : Z) (s : Store) : Store :=
  mkStore (users s) (products s) (favorites s) (cartItems s)
          (sellerApplications s) (products_id_seq s) n (cart_items_id_seq s).

Definition set_cart_items_id_seq (n : Z) (s : Store) : Store :=
  mkStore (users s) (products s) (favorites s) (cartItems s)
          (sellerApplications s) (products_id_seq s) (favorites_id_seq s) n.

Definition initial : Store := mkStore ∅ [] [] [] [] 0 0 0.

(** The outcome of an awaited call and the store it leaves. *)
Definition M (A : Type) : Type := Store → (exn + A) * Store.

Definition ret {A} (a : A) : M A := λ s, (inr a, s).

Definition throw {A} (e : exn) : M A := λ s, (inl e, s).

Definition bind {A B} (m : M A) (k : A → M B) : M B := λ s,
  match m s with
  | (inl e, s') => (inl e, s')
  | (inr a, s') => k a s'
  end.

Definition gets {A} (f : Store → A) : M A := λ s, (inr (f s), s).

Definition modify (f : Store → Store) : M unit := λ s, (inr tt, f s).

(** [UPDATE t SET ... WHERE c RETURNING *]: the rows after the statement
    and the rows it changed. *)
Definition update_where {A} (c : A → Prop) `{∀ x, Decision (c x)}
    (f : A → A) (rows : list A) : list A * list A :=
  ((λ r, if decide (c r) then f r else r) <$> rows, f <$> filter c rows).

(** [DELETE FROM t WHERE c] *)
Definition delete_where {A} (c : A → Prop) `{∀ x, Decision (c x)}
    (rows : list A) : list A :=
  filter (λ r, ¬ c r) rows.

(** [ORDER BY key DESC]. A NULL key sorts before every other one, as
    PostgreSQL orders it; the order of rows with equal keys is whatever
    the sort leaves, and no property below depends on it. *)
Definition desc_le (x y : option Z) : Prop :=
  match x, y with
  | None, _ => True
  | Some _, None => False
  | Some a, Some b => (b ≤ a)%Z
  end.

#[export] Instance desc_le_dec x y : Decision (desc_le x y).
Proof. destruct x, y; simpl; apply _. Defined.

Definition desc_by {A} (key : A → option Z) : relation A :=
  λ r1 r2, desc_le (key r1) (key r2).

Definition orderBy_desc {A} (key : A → option Z) (rows : list A) : list A :=
  merge_sort (desc_by key) rows.

End Db.

Module DbNotations.
Notation "'let!' x ':=' m 'in' k" := (Db.bind m (λ x, k))
  (at level 10, x name, m at level 100, k at level 200, only parsing).
Notation "'do!' m 'in' k" := (Db.bind m (λ _, k))
  (at level 10, m at level 100, k at level 200, only parsing).
End DbNotations.

(** ** server/storage.ts: class DatabaseStorage *)

Module Storage.
Import Db DbNotations.

(** *** User operations *)

Definition getUser (id : string) : M (option User.t) :=
  gets (λ s, users s !! id).

(** [email: varchar("email").unique()]: the e-mail address a payload
    supplies is free when no row of another identity holds it; NULL never
    collides. *)
Definition email_free (userData : UpsertUser.t) (us : gmap string User.t) : Prop :=
  match UpsertUser.email userData with
  | Some (Some e) =>
      map_Forall (λ k u, k = UpsertUser.id userData ∨ User.email u ≠ Some e) us
  | _ => True
  end.

#[export] Instance email_free_dec userData us : Decision (email_free userData us).
Proof. unfold email_free. destruct (UpsertUser.email userData) as [[e|]|]; apply _. Defined.

(** [.values(userData)] when no row has the identity: the keys left out
    take the column defaults. *)
Definition insert_values (userData : UpsertUser.t) (now : Z) : User.t :=
  User.mk (UpsertUser.id userData)
    (default None (UpsertUser.email userData))
    (default None (UpsertUser.firstName userData))
    (default None (UpsertUser.lastName userData))
    (default None (UpsertUser.profileImageUrl userData))
    (default "buyer" (UpsertUser.role userData))
    (default (Some false) (UpsertUser.isApproved userData))
    (default (Some now) (UpsertUser.createdAt userData))
    (default (Some now) (UpsertUser.updatedAt userData)).

(** [set: { ...userData, updatedAt: new Date() }] on the conflicting row:
    a key that is absent (undefined) is not part of the SET clause. *)
Definition conflict_set (userData : UpsertUser.t) (now : Z) (u : User.t) : User.t :=
  User.mk (UpsertUser.id userData)
    (default (User.email u) (UpsertUser.email userData))
    (default (User.firstName u) (UpsertUser.firstName userData))
    (default (User.lastName u) (UpsertUser.lastName userData))
    (default (User.profileImageUrl u) (UpsertUser.profileImageUrl userData))
    (default (User.role u) (UpsertUser.role userData))
    (default (User.isApproved u) (UpsertUser.isApproved userData))
    (default (User.createdAt u) (UpsertUser.createdAt userData))
    (Some now).

Definition upsertUser (userData : UpsertUser.t) (now : Z) : M User.t := λ s,
  if decide (email_free userData (users s)) then
    let user :=
      match users s !! UpsertUser.id userData with
      | Some u => conflict_set userData now u
      | None => insert_values userData now
      end in
    (inr user, set_users (λ us, <[UpsertUser.id userData := user]> us) s)
  else (inl (UniqueViolation "users_email_unique"), s).

(** *** Product operations *)

Definition approved (p : Product.t) : Prop := Product.isApproved p = Some true.

Definition getProducts (categoryId : option Z) : M (list Product.t) :=
  if Js.truthy categoryId then
    gets (λ s, orderBy_desc Product.createdAt
                 (filter (λ p, approved p ∧ Some (Product.categoryId p) = categoryId)
                         (products s)))
  else
    gets (λ s, orderBy_desc Product.createdAt (filter approved (products s))).

Definition getProduct (id : Z) : M (option Product.t) :=
  gets (λ s, Js.first (filter (λ p, Product.id p = id) (products s))).

Definition getRecommendedProducts (limit : option nat) : M (list Product.t) :=
  let limit := default 4 limit in
  gets (λ s, take limit (orderBy_desc Product.favoriteCount
                           (filter approved (products s)))).

Definition createProduct (product : InsertProduct.t) (now : Z) : M Product.t := λ s,
  let id := (products_id_seq s + 1)%Z in
  let newProduct :=
    Product.mk id
      (InsertProduct.name product) (InsertProduct.description product)
      (InsertProduct.price product) (InsertProduct.imageUrl product)
      (InsertProduct.sellerId product) (InsertProduct.categoryId product)
      (default (Some false) (InsertProduct.isApproved product))
      (default (Some 0%Z) (InsertProduct.favoriteCount product))
      (Some now) (Some now) in
  (inr newProduct,
   set_products (λ ps, ps ++ [newProduct]) (set_products_id_seq id s)).

(** *** Favorites operations *)

(** [primaryKey({ columns: [table.userId, table.productId] })] *)
Definition favorite_pair (userId : string) (productId : Z) (f : Favorite.t) : Prop :=
  Favorite.userId f = userId ∧ Favorite.productId f = productId.

(** [db.insert(favorites).values(favorite).returning()]. The id is drawn
    from the sequence before the key is checked, so a refused insert uses
    one up. *)
Definition insert_favorite (favorite : InsertFavorite.t) (now : Z) : M Favorite.t := λ s,
  let id := (favorites_id_seq s + 1)%Z in
  let s1 := set_favorites_id_seq id s in
  let row := Favorite.mk id (InsertFavorite.userId favorite)
                         (InsertFavorite.productId favorite) (Some now) in
  if decide (Exists (favorite_pair (InsertFavorite.userId favorite)
                                   (InsertFavorite.productId favorite))
                    (favorites s))
  then (inl (UniqueViolation "favorites_user_id_product_id_pk"), s1)
  else (inr row, set_favorites (λ fs, fs ++ [row]) s1).

(** The rows of [select({ count: favorites.id }).from(favorites)
    .where(eq(favorites.productId, productId))]. *)
Definition favorites_of (productId : Z) (s : Store) : list Favorite.t :=
  filter (λ f, Favorite.productId f = productId) (favorites s).

(** [db.update(products).set({ favoriteCount: count.length })
    .where(eq(products.id, productId))] *)
Definition set_favoriteCount (productId : Z) (n : nat) : M unit :=
  modify (set_products (λ ps,
    (update_where (λ p, Product.id p = productId)
                  (Product.with_favoriteCount (Some (Z.of_nat n))) ps).1)).

Definition addToFavorites (favorite : InsertFavorite.t) (now : Z) : M Favorite.t :=
  let! newFavorite := insert_favorite favorite now in
  let! count := gets (favorites_of (InsertFavorite.productId favorite)) in
  do! set_favoriteCount (InsertFavorite.productId favorite) (length count) in
  ret newFavorite.

Definition removeFromFavorites (userId : string) (productId : Z) : M unit :=
  do! modify (set_favorites (delete_where (favorite_pair userId productId))) in
  let! count := gets (favorites_of productId) in
  set_favoriteCount productId (length count).

(** *** Cart operations *)

Definition cart_pair (userId : string) (productId : Z) (c : CartItem.t) : Prop :=
  CartItem.userId c = userId ∧ CartItem.productId c = productId.

Definition addToCart (cartItem : InsertCartItem.t) (now : Z) : M (option CartItem.t) :=
  let! existingItem :=
    gets (λ s, Js.first (filter (cart_pair (InsertCartItem.userId cartItem)
                                           (InsertCartItem.productId cartItem))
                                (cartItems s))) in
  match existingItem with
  | Some existingItem =>
      let quantity :=
        (Js.or_num (CartItem.quantity existingItem) 0
         + Js.or_num (mjoin (InsertCartItem.quantity cartItem)) 1)%Z in
      λ s,
        let '(rows, changed) :=
          update_where (λ c, CartItem.id c = CartItem.id existingItem)
                       (CartItem.with_quantity (Some quantity)) (cartItems s) in
        (inr (Js.first changed), set_cartItems (λ _, rows) s)
  | None =>
      λ s,
        let id := (cart_items_id_seq s + 1)%Z in
        let newCartItem :=
          CartItem.mk id (InsertCartItem.userId cartItem)
                      (InsertCartItem.productId cartItem)
                      (default (Some 1%Z) (InsertCartItem.quantity cartItem))
                      (Some now) in
        (inr (Some newCartItem),
         set_cartItems (λ cs, cs ++ [newCartItem]) (set_cart_items_id_seq id s))
  end.

Definition removeFromCart (id : Z) : M unit :=
  modify (set_cartItems (delete_where (λ c, CartItem.id c = id))).

(** *** Seller application operations *)

Definition updateSellerApplicationStatus (id : Z) (status : string)
    : M (option SellerApplication.t) := λ s,
  let '(rows, changed) :=
    update_where (λ a, SellerApplication.id a = id)
                 (SellerApplication.with_status (Some status))
                 (sellerApplications s) in
  (inr (Js.first changed), set_sellerApplications (λ _, rows) s).

End Storage.

(** ** server/routes.ts: the handlers of registerRoutes

    A handler is modelled behind [isAuthenticated]: its first argument is
    the identity [req.user.claims.sub] of the session. *)

Module Routes.
Import Db DbNotations Storage.

Inductive json :=
  | Message (message : string)
  | OfProduct (product : Product.t)
  | OfFavorite (favorite : Favorite.t)
  | OfApplication (application : option SellerApplication.t).

Record response := mkResponse { status : Z; body : json }.

(** [res.json(b)] *)
Definition res_json (b : json) : response := mkResponse 200 b.

(** [res.status(code).json({ message })] *)
Definition res_status (code : Z) (message : string) : response :=
  mkResponse code (Message message).

Definition handler : Type := Store → response * Store.

(** [try { ... } catch (error) { ... }] around the body of a handler. *)
Definition run (m : M response) (catch : exn → response) : handler := λ s,
  match m s with
  | (inr r, s') => (r, s')
  | (inl error, s') => (catch error, s')
  end.

(** [req.body] of POST /api/products as [insertProductSchema] reads it:
    a field is [None] when the key is absent or its value is not of the
    type of the column. *)
Module ProductBody.
Record t := mk {
  name : option string;
  description : option string;
  price : option string;
  imageUrl : option string;
  sellerId : option string;
  categoryId : option Z;
  isApproved : option (option bool);
  favoriteCount : option (option Z)
}.
End ProductBody.

(** [createInsertSchema(products).omit({ id, createdAt, updatedAt }).parse]:
    the columns that are [notNull] and have no default are required. *)
Definition insertProductSchema_parse (body : ProductBody.t) : M InsertProduct.t :=
  match ProductBody.name body, ProductBody.description body,
        ProductBody.price body, ProductBody.imageUrl body,
        ProductBody.sellerId body, ProductBody.categoryId body with
  | Some name, Some description, Some price, Some imageUrl,
    Some sellerId, Some categoryId =>
      ret (InsertProduct.mk name description price imageUrl sellerId categoryId
             (ProductBody.isApproved body) (ProductBody.favoriteCount body))
  | _, _, _, _, _, _ => throw ZodError
  end.

(** [app.post('/api/products', isAuthenticated, ...)] *)
Definition post_api_products_catch (error : exn) : response :=
  res_status 500 "Failed to create product".

Definition post_api_products (userId : string) (body : ProductBody.t) (now : Z)
    : handler :=
  run
    (let! user := getUser userId in
     match user with
     | None => ret (res_status 403 "Only approved sellers can create products")
     | Some user =>
         if decide (User.role user ≠ "seller" ∧ User.role user ≠ "admin") then
           ret (res_status 403 "Only approved sellers can create products")
         else
           let! productData := insertProductSchema_parse body in
           let! product :=
             createProduct
               (InsertProduct.mk
                  (InsertProduct.name productData)
                  (InsertProduct.description productData)
                  (InsertProduct.price productData)
                  (InsertProduct.imageUrl productData)
                  userId
                  (InsertProduct.categoryId productData)
                  (Some (Some (bool_decide (User.role user = "admin"))))
                  (InsertProduct.favoriteCount productData))
               now in
           ret (res_json (OfProduct product))
     end)
    post_api_products_catch.

(** [app.post('/api/favorites', isAuthenticated, ...)]. [productId] is
    [req.body.productId]; when the body has none, the insert of
    [addToFavorites] is refused by the [notNull] column, after it drew
    its id. *)
Definition post_api_favorites_catch (error : exn) : response :=
  res_status 500 "Failed to add to favorites".

Definition post_api_favorites (userId : string) (productId : option Z) (now : Z)
    : handler :=
  run
    (let! favorite :=
       match productId with
       | Some productId => addToFavorites (InsertFavorite.mk userId productId) now
       | None =>
           λ s, (inl (NotNullViolation "product_id"),
                 set_favorites_id_seq (favorites_id_seq s + 1) s)
       end in
     ret (res_json (OfFavorite favorite)))
    post_api_favorites_catch.

(** [app.delete('/api/favorites/:productId', isAuthenticated, ...)] *)
Definition delete_api_favorites_productId (userId : string) (productId : Z)
    : handler :=
  run
    (do! removeFromFavorites userId productId in
     ret (res_json (Message "Removed from favorites")))
    (λ error, res_status 500 "Failed to remove from favorites").

(** [app.delete('/api/cart/:id', isAuthenticated, ...)]: the handler
    reads [req.params.id] only. *)
Definition delete_api_cart_id (userId : string) (id : Z) : handler :=
  run
    (do! removeFromCart id in
     ret (res_json (Message "Removed from cart")))
    (λ error, res_status 500 "Failed to remove from cart").

(** [app.patch('/api/admin/applications/:id', isAuthenticated, ...)].
    [application.userId] on an [undefined] application is a TypeError. *)
Definition patch_api_admin_applications_id
    (userId : string) (id : Z) (status : string) (now : Z) : handler :=
  run
    (let! user := getUser userId in
     match user with
     | None => ret (res_status 403 "Admin access required")
     | Some user =>
         if decide (User.role user ≠ "admin") then
           ret (res_status 403 "Admin access required")
         else
           let! application := updateSellerApplicationStatus id status in
           do! (if decide (status = "approved") then
                  match application with
                  | Some a =>
                      do! upsertUser
                            (UpsertUser.mk (SellerApplication.userId a)
                               None None None None
                               (Some "seller") (Some (Some true)) None None)
                            now in
                      ret tt
                  | None =>
                      throw (TypeError "Cannot read properties of undefined")
                  end
                else ret tt) in
           ret (res_json (OfApplication application))
     end)
    (λ error, res_status 500 "Failed to update application").

End Routes.

(** ** Sequences of favorite operations

    Each operation settles, with whatever outcome, before the next one
    starts. *)

Module Scenario.
Import Db Storage.

Inductive favorite_op :=
  | AddToFavorites (favorite : InsertFavorite.t) (now : Z)
  | RemoveFromFavorites (userId : string) (productId : Z).

Definition run_favorite_op (s : Store) (op : favorite_op) : Store :=
  match op with
  | AddToFavorites favorite now => (addToFavorites favorite now s).2
  | RemoveFromFavorites userId productId => (removeFromFavorites userId productId s).2
  end.

Definition run_favorite_ops (ops : list favorite_op) (s : Store) : Store :=
  foldl run_favorite_op s ops.

(** The partial-merge law in the words of the specification: a field the
    payload supplies is overwritten, a field it omits keeps its prior
    value. *)
Definition merged {A} (supplied : option A) (prior result : A) : Prop :=
  match supplied with
  | Some v => result = v
  | None => result = prior
  end.



(** The count stored on every product row is the number of favorite rows
    that reference the product. *)
Definition favoriteCount_consistent (s : Store) : Prop :=
  Forall (λ p, Product.favoriteCount p
               = Some (Z.of_nat (length (favorites_of (Product.id p) s))))
         (products s).

End Scenario.

(** ** PostgreSQL column types: the values a column takes as they are *)

Module Pg.

(** [integer] and [serial]: four bytes. *)
Definition int4 (z : Z) : Prop := (-2147483648 ≤ z ≤ 2147483647)%Z.

#[global] Instance int4_dec z : Decision (int4 z).
Proof. unfold int4. apply _. Defined.

(** An integer that may be NULL or left out. *)
Definition int4_or_null (z : option Z) : Prop :=
  match z with
  | Some z => int4 z
  | None => True
  end.

#[global] Instance int4_or_null_dec z : Decision (int4_or_null z).
Proof. destruct z; simpl; apply _. Defined.

Definition is_digit (a : Ascii.ascii) : bool :=
  (48 <=? Ascii.nat_of_ascii a)%nat && (Ascii.nat_of_ascii a <=? 57)%nat.

Fixpoint all_digits (s : string) : bool :=
  match s with
  | EmptyString => true
  | String a s => is_digit a && all_digits s
  end.

(** The texts that a [decimal(10, 2)] column stores and returns unchanged,
    among those that are not negative: one to eight digits without a
    superfluous leading zero, the point, two digits. Other texts are
    rounded ("19.999"), completed ("5") or refused ("abc"). *)
Definition decimal_10_2 (s : string) : Prop :=
  let n := String.length s in
  let whole := String.substring 0 (n - 3) s in
  let rest := String.substring (n - 3) 3 s in
  Is_true
    ((4 <=? n)%nat && (n <=? 11)%nat
     && all_digits whole
     && match whole with
        | String a (String _ _) => negb (Ascii.nat_of_ascii a =? 48)%nat
        | _ => true
        end
     && match rest with
        | String a cents => (Ascii.nat_of_ascii a =? 46)%nat && all_digits cents
        | _ => false
        end).

#[global] Instance decimal_10_2_dec s : Decision (decimal_10_2 s).
Proof. unfold decimal_10_2. apply _. Defined.

(** The values of an insert into [products], and the id it draws. *)
Definition product_values (product : InsertProduct.t) : Prop :=
  decimal_10_2 (InsertProduct.price product)
  ∧ int4 (InsertProduct.categoryId product)
  ∧ int4_or_null (mjoin (InsertProduct.favoriteCount product)).

#[global] Instance product_values_dec product : Decision (product_values product).
Proof. unfold product_values. apply _. Defined.

End Pg.

(** ** Sample data *)

Module Demo.
Import Db Storage Routes Scenario.

Definition user (id role : string) (email : option string) : User.t :=
  User.mk id email (Some "Ada") (Some "Moss") (Some "/img/ada.png") role
          (Some false) (Some 5%Z) (Some 5%Z).

Definition lamp (id : Z) (isApproved : option bool) (favoriteCount createdAt : Z)
    : Product.t :=
  Product.mk id "Lamp" "A desk lamp" "19.99" "/img/lamp.png" "sam" 2
             isApproved (Some favoriteCount) (Some createdAt) (Some createdAt).

Definition application (id : Z) (userId : string) : SellerApplication.t :=
  SellerApplication.mk id userId "ada@example.org" "+100" "IBAN" (Some "pending")
                       (Some 7%Z).

(** Three users, two listed products and one waiting for approval, a cart
    row of bob, and an application of ada. *)
Definition store : Store :=
  mkStore
    (<["root" := user "root" "admin" None]>
       (<["sam" := user "sam" "seller" (Some "sam@example.org")]>
          (<["ada" := user "ada" "buyer" (Some "ada@example.org")]> ∅)))
    [lamp 1 (Some true) 0 10; lamp 2 (Some false) 0 20; lamp 3 (Some true) 0 30]
    []
    [CartItem.mk 1 "bob" 3 (Some 2%Z) (Some 8%Z)]
    [application 1 "ada"]
    3 0 1.

Definition lamp_body : ProductBody.t :=
  ProductBody.mk (Some "Lamp") (Some "A desk lamp") (Some "19.99")
                 (Some "/img/lamp.png") (Some "someone-else") (Some 2%Z)
                 (Some (Some true)) None.

(** The same body with a favoriteCount of its own. *)
Definition counted_body : ProductBody.t :=
  ProductBody.mk (Some "Lamp") (Some "A desk lamp") (Some "19.99")
                 (Some "/img/lamp.png") (Some "sam") (Some 2%Z)
                 None (Some (Some 7%Z)).

End Demo.

(** * The rest of the data-access layer and of the routes *)

(** ** shared/schema.ts: the other rows and payloads *)

Module Category.
Record t := mk {
  id : Z;
  name : string;
  slug : string;
  color : string;
  icon : string
}.
End Category.

Module InsertCategory.
Record t := mk {
  name : string;
  slug : string;
  color : string;
  icon : string
}.
End InsertCategory.

Module Order.
Record t := mk {
  id : Z;
  userId : string;
  productId : Z;
  sellerId : string;
  quantity : Z;
  totalPrice : string;
  status : option string;
  createdAt : option Z
}.

Definition with_status (st : option string) (o : t) : t :=
  mk (id o) (userId o) (productId o) (sellerId o) (quantity o) (totalPrice o)
     st (createdAt o).
End Order.

Module InsertOrder.
Record t := mk {
  userId : string;
  productId : Z;
  sellerId : string;
  quantity : Z;
  totalPrice : string;
  status : option (option string)
}.
End InsertOrder.

Module InsertSellerApplication.
Record t := mk {
  userId : string;
  email : string;
  whatsapp : string;
  paymentInfo : string;
  status : option (option string)
}.
End InsertSellerApplication.

(** [Partial<InsertProduct>]: every key of the insert type of [products],
    the id and the timestamps included, may be present or not. *)
Module ProductPatch.
Record t := mk {
  id : option Z;
  name : option string;
  description : option string;
  price : option string;
  imageUrl : option string;
  sellerId : option string;
  categoryId : option Z;
  isApproved : option (option bool);
  favoriteCount : option (option Z);
  createdAt : option (option Z);
  updatedAt : option (option Z)
}.
End ProductPatch.

(** ** server/storage.ts: the other methods over the tables above *)

Module MoreStorage.
Import Db DbNotations Storage.

(** *** Product operations *)


(** [.set({ ...product, updatedAt: new Date() })] on a row. *)
Definition patch_set (product : ProductPatch.t) (now : Z) (p : Product.t) : Product.t :=
  Product.mk
    (default (Product.id p) (ProductPatch.id product))
    (default (Product.name p) (ProductPatch.name product))
    (default (Product.description p) (ProductPatch.description product))
    (default (Product.price p) (ProductPatch.price product))
    (default (Product.imageUrl p) (ProductPatch.imageUrl product))
    (default (Product.sellerId p) (ProductPatch.sellerId product))
    (default (Product.categoryId p) (ProductPatch.categoryId product))
    (default (Product.isApproved p) (ProductPatch.isApproved product))
    (default (Product.favoriteCount p) (ProductPatch.favoriteCount product))
    (default (Product.createdAt p) (ProductPatch.createdAt product))
    (Some now).

(** The values of a patch that the columns of [products] take as they
    are. *)
Definition patch_values (product : ProductPatch.t) : Prop :=
  Pg.int4_or_null (ProductPatch.id product)
  ∧ match ProductPatch.price product with
    | Some price => Pg.decimal_10_2 price
    | None => True
    end
  ∧ Pg.int4_or_null (ProductPatch.categoryId product)
  ∧ Pg.int4_or_null (mjoin (ProductPatch.favoriteCount product)).

#[export] Instance patch_values_dec product : Decision (patch_values product).
Proof.
  unfold patch_values. destruct (ProductPatch.price product); apply _.
Defined.

(** The partial-merge law of [updateProduct], field by field. *)
Definition patch_law (product : ProductPatch.t) (prior result : Product.t) : Prop :=
  Scenario.merged (ProductPatch.id product) (Product.id prior) (Product.id result)
  ∧ Scenario.merged (ProductPatch.name product) (Product.name prior) (Product.name result)
  ∧ Scenario.merged (ProductPatch.description product) (Product.description prior)
                    (Product.description result)
  ∧ Scenario.merged (ProductPatch.price product) (Product.price prior) (Product.price result)
  ∧ Scenario.merged (ProductPatch.imageUrl product) (Product.imageUrl prior)
                    (Product.imageUrl result)
  ∧ Scenario.merged (ProductPatch.sellerId product) (Product.sellerId prior)
                    (Product.sellerId result)
  ∧ Scenario.merged (ProductPatch.categoryId product) (Product.categoryId prior)
                    (Product.categoryId result)
  ∧ Scenario.merged (ProductPatch.isApproved product) (Product.isApproved prior)
                    (Product.isApproved result)
  ∧ Scenario.merged (ProductPatch.favoriteCount product) (Product.favoriteCount prior)
                    (Product.favoriteCount result)
  ∧ Scenario.merged (ProductPatch.createdAt product) (Product.createdAt prior)
                    (Product.createdAt result).

(** The primary key of [products] refuses an update that moves a row onto
    an id another row holds. *)
Definition id_taken (id : Z) (product : ProductPatch.t) (ps : list Product.t) : Prop :=
  match ProductPatch.id product with
  | Some id' =>
      id' ≠ id
      ∧ Exists (λ p, Product.id p = id) ps
      ∧ Exists (λ p, Product.id p = id') ps
  | None => False
  end.

#[export] Instance id_taken_dec id product ps : Decision (id_taken id product ps).
Proof. unfold id_taken. destruct (ProductPatch.id product); apply _. Defined.

Definition updateProduct (id : Z) (product : ProductPatch.t) (now : Z)
    : M (option Product.t) := λ s,
  if decide (id_taken id product (products s)) then
    (inl (UniqueViolation "products_pkey"), s)
  else
    let '(rows, changed) :=
      update_where (λ p, Product.id p = id) (patch_set product now) (products s) in
    (inr (Js.first changed), set_products (λ _, rows) s).

Definition deleteProduct (id : Z) : M unit :=
  modify (set_products (delete_where (λ p, Product.id p = id))).

(** *** Favorites operations *)

(** [.from(favorites).innerJoin(products, eq(favorites.productId,
    products.id)).where(eq(favorites.userId, userId))], each joined row
    mapped to its product. *)
Definition getUserFavorites (userId : string) : M (list Product.t) :=
  gets (λ s,
    filter (λ f, Favorite.userId f = userId) (favorites s) ≫= λ f,
    filter (λ p, Product.id p = Favorite.productId f) (products s)).

Definition isProductFavorited (userId : string) (productId : Z) : M bool :=
  let! favorite :=
    gets (λ s, Js.first (filter (favorite_pair userId productId) (favorites s))) in
  ret (if favorite is Some _ then true else false).

(** *** Cart operations *)

Definition getUserCart (userId : string) : M (list CartItem.t) :=
  gets (λ s, filter (λ c, CartItem.userId c = userId) (cartItems s)).

Definition updateCartItem (id : Z) (quantity : Z) : M (option CartItem.t) := λ s,
  let '(rows, changed) :=
    update_where (λ c, CartItem.id c = id)
                 (CartItem.with_quantity (Some quantity)) (cartItems s) in
  (inr (Js.first changed), set_cartItems (λ _, rows) s).

Definition clearCart (userId : string) : M unit :=
  modify (set_cartItems (delete_where (λ c, CartItem.userId c = userId))).

(** *** Seller application operations *)

Definition getSellerApplications : M (list SellerApplication.t) :=
  gets (λ s, orderBy_desc SellerApplication.createdAt (sellerApplications s)).

Definition getUserSellerApplication (userId : string)
    : M (option SellerApplication.t) :=
  gets (λ s, Js.first
               (orderBy_desc SellerApplication.createdAt
                  (filter (λ a, SellerApplication.userId a = userId)
                          (sellerApplications s)))).

End MoreStorage.

(** ** The categories and orders tables, and the remaining sequence *)

Module Full.
Import Db.

Record Store := mkStore {
  db : Db.Store;
  categories : list Category.t;
  orders : list Order.t;
  categories_id_seq : Z;
  orders_id_seq : Z;
  seller_applications_id_seq : Z
}.

Definition set_db (f : Db.Store → Db.Store) (w : Store) : Store :=
  mkStore (f (db w)) (categories w) (orders w) (categories_id_seq w)
          (orders_id_seq w) (seller_applications_id_seq w).

Definition set_categories (f : list Category.t → list Category.t) (w : Store) : Store :=
  mkStore (db w) (f (categories w)) (orders w) (categories_id_seq w)
          (orders_id_seq w) (seller_applications_id_seq w).

Definition set_orders (f : list Order.t → list Order.t) (w : Store) : Store :=
  mkStore (db w) (categories w) (f (orders w)) (categories_id_seq w)
          (orders_id_seq w) (seller_applications_id_seq w).

Definition set_categories_id_seq (n : Z) (w : Store) : Store :=
  mkStore (db w) (categories w) (orders w) n
          (orders_id_seq w) (seller_applications_id_seq w).

Definition set_orders_id_seq (n : Z) (w : Store) : Store :=
  mkStore (db w) (categories w) (orders w) (categories_id_seq w)
          n (seller_applications_id_seq w).

Definition set_seller_applications_id_seq (n : Z) (w : Store) : Store :=
  mkStore (db w) (categories w) (orders w) (categories_id_seq w)
          (orders_id_seq w) n.

Definition initial : Store := mkStore Db.initial [] [] 0 0 0.

Definition M (A : Type) : Type := Store → (exn + A) * Store.

Definition ret {A} (a : A) : M A := λ w, (inr a, w).

Definition throw {A} (e : exn) : M A := λ w, (inl e, w).

Definition bind {A B} (m : M A) (k : A → M B) : M B := λ w,
  match m w with
  | (inl e, w') => (inl e, w')
  | (inr a, w') => k a w'
  end.

Definition gets {A} (f : Store → A) : M A := λ w, (inr (f w), w).

(** [for (const x of xs) { await body(x); }] *)
Fixpoint for_of {A} (xs : list A) (body : A → M unit) : M unit :=
  match xs with
  | [] => ret tt
  | x :: xs => bind (body x) (λ _, for_of xs body)
  end.

(** [ORDER BY key ASC] on a text column, under the collation [collate]
    of the database. *)
Definition orderBy_asc {A} (collate : relation string)
    `{∀ x y, Decision (collate x y)} (key : A → string) (rows : list A) : list A :=
  merge_sort (λ r1 r2, collate (key r1) (key r2)) rows.

End Full.

Module FullStorage.
Import Db Full.

(** *** Category operations *)

Definition getCategories (collate : relation string)
    `{∀ x y, Decision (collate x y)} : M (list Category.t) :=
  gets (λ w, orderBy_asc collate Category.name (categories w)).

(** [name] and [slug] are both [.unique()]. *)
Definition createCategory (category : InsertCategory.t) : M Category.t := λ w,
  let id := (categories_id_seq w + 1)%Z in
  let w1 := set_categories_id_seq id w in
  let newCategory :=
    Category.mk id (InsertCategory.name category) (InsertCategory.slug category)
                (InsertCategory.color category) (InsertCategory.icon category) in
  if decide (Exists (λ c, Category.name c = InsertCategory.name category)
                    (categories w))
  then (inl (UniqueViolation "categories_name_unique"), w1)
  else if decide (Exists (λ c, Category.slug c = InsertCategory.slug category)
                         (categories w))
  then (inl (UniqueViolation "categories_slug_unique"), w1)
  else (inr newCategory, set_categories (λ cs, cs ++ [newCategory]) w1).

(** *** Order operations *)

Definition getUserOrders (userId : string) : M (list Order.t) :=
  gets (λ w, orderBy_desc Order.createdAt
               (filter (λ o, Order.userId o = userId) (orders w))).

Definition getSellerOrders (sellerId : string) : M (list Order.t) :=
  gets (λ w, orderBy_desc Order.createdAt
               (filter (λ o, Order.sellerId o = sellerId) (orders w))).

Definition createOrder (order : InsertOrder.t) (now : Z) : M Order.t := λ w,
  let id := (orders_id_seq w + 1)%Z in
  let newOrder :=
    Order.mk id (InsertOrder.userId order) (InsertOrder.productId order)
             (InsertOrder.sellerId order) (InsertOrder.quantity order)
             (InsertOrder.totalPrice order)
             (default (Some "pending") (InsertOrder.status order))
             (Some now) in
  (inr newOrder, set_orders (λ os, os ++ [newOrder]) (set_orders_id_seq id w)).


(** *** Seller application operations *)

Definition createSellerApplication (application : InsertSellerApplication.t)
    (now : Z) : M SellerApplication.t := λ w,
  let id := (seller_applications_id_seq w + 1)%Z in
  let newApplication :=
    SellerApplication.mk id
      (InsertSellerApplication.userId application)
      (InsertSellerApplication.email application)
      (InsertSellerApplication.whatsapp application)
      (InsertSellerApplication.paymentInfo application)
      (default (Some "pending") (InsertSellerApplication.status application))
      (Some now) in
  (inr newApplication,
   set_db (set_sellerApplications (λ rows, rows ++ [newApplication]))
          (set_seller_applications_id_seq id w)).

End FullStorage.

(** ** server/routes.ts: the other handlers, and initializeCategories *)

Module MoreRoutes.
Import Db DbNotations Storage MoreStorage Routes.

(** [app.get('/api/products/:id', ...)] *)
Definition get_api_products_id (id : Z) : handler :=
  run
    (let! product := getProduct id in
     match product with
     | None => ret (res_status 404 "Product not found")
     | Some product => ret (res_json (OfProduct product))
     end)
    (λ error, res_status 500 "Failed to fetch product").

(** [app.get('/api/seller-applications/me', isAuthenticated, ...)] *)
Definition get_api_seller_applications_me (userId : string) : handler :=
  run
    (let! application := getUserSellerApplication userId in
     ret (res_json (OfApplication application)))
    (λ error, res_status 500 "Failed to fetch seller application").

(** A response whose body is either [{ message }] or a value of type
    [A], for the handlers that answer with other rows than the above. *)
Record reply (A : Type) := mkReply { code : Z; content : string + A }.
Arguments mkReply {A} _ _.
Arguments code {A} _.
Arguments content {A} _.

Definition reply_json {A} (a : A) : reply A := mkReply 200 (inr a).

Definition reply_status {A} (c : Z) (message : string) : reply A :=
  mkReply c (inl message).

Definition answer {S E A} (m : S → (E + reply A) * S) (catch : E → reply A)
    : S → reply A * S := λ s,
  match m s with
  | (inr r, s') => (r, s')
  | (inl error, s') => (catch error, s')
  end.

(** [app.post('/api/cart', isAuthenticated, ...)] with
    [const { productId, quantity = 1 } = req.body]: the default replaces a
    quantity that is [undefined], not one that is [null]. [productId] is a
    number. *)
Definition post_api_cart (userId : string) (productId : Z)
    (quantity : option (option Z)) (now : Z)
    : Store → reply (option CartItem.t) * Store :=
  answer
    (let quantity := default (Some 1%Z) quantity in
     let! cartItem :=
       addToCart (InsertCartItem.mk userId productId (Some quantity)) now in
     ret (reply_json cartItem))
    (λ error, reply_status 500 "Failed to add to cart").

(** [app.get('/api/admin/applications', isAuthenticated, ...)] *)
Definition get_api_admin_applications (userId : string)
    : Store → reply (list SellerApplication.t) * Store :=
  answer
    (let! user := getUser userId in
     match user with
     | None => ret (reply_status 403 "Admin access required")
     | Some user =>
         if decide (User.role user ≠ "admin") then
           ret (reply_status 403 "Admin access required")
         else
           let! applications := getSellerApplications in
           ret (reply_json applications)
     end)
    (λ error, reply_status 500 "Failed to fetch applications").

(** [req.body] of POST /api/seller-applications as
    [insertSellerApplicationSchema] reads it. *)
Module ApplicationBody.
Record t := mk {
  userId : option string;
  email : option string;
  whatsapp : option string;
  paymentInfo : option string;
  status : option (option string)
}.
End ApplicationBody.

(** [createInsertSchema(sellerApplications).omit({ id, createdAt }).parse] *)
Definition insertSellerApplicationSchema_parse (body : ApplicationBody.t)
    : Full.M InsertSellerApplication.t :=
  match ApplicationBody.userId body, ApplicationBody.email body,
        ApplicationBody.whatsapp body, ApplicationBody.paymentInfo body with
  | Some userId, Some email, Some whatsapp, Some paymentInfo =>
      Full.ret (InsertSellerApplication.mk userId email whatsapp paymentInfo
                  (ApplicationBody.status body))
  | _, _, _, _ => Full.throw ZodError
  end.

(** [app.post('/api/seller-applications', isAuthenticated, ...)] *)
Definition post_api_seller_applications (userId : string)
    (body : ApplicationBody.t) (now : Z) : Full.Store → response * Full.Store :=
  λ w,
    match
      Full.bind (insertSellerApplicationSchema_parse body) (λ applicationData,
        FullStorage.createSellerApplication
          (InsertSellerApplication.mk userId
             (InsertSellerApplication.email applicationData)
             (InsertSellerApplication.whatsapp applicationData)
             (InsertSellerApplication.paymentInfo applicationData)
             (InsertSellerApplication.status applicationData))
          now) w
    with
    | (inr application, w') => (res_json (OfApplication (Some application)), w')
    | (inl error, w') => (res_status 500 "Failed to create seller application", w')
    end.

(** [app.post('/api/orders', isAuthenticated, ...)] with
    [const { productId, quantity, totalPrice, sellerId } = req.body]: a key
    the body lacks reaches the insert as [undefined], each of these columns
    is [notNull], and the insert is refused after it drew its id. *)
Definition post_api_orders (userId : string) (productId : option Z)
    (quantity : option Z) (totalPrice sellerId : option string) (now : Z)
    : Full.Store → reply Order.t * Full.Store :=
  answer
    (Full.bind
       (match productId, sellerId, quantity, totalPrice with
        | Some productId, Some sellerId, Some quantity, Some totalPrice =>
            FullStorage.createOrder
              (InsertOrder.mk userId productId sellerId quantity totalPrice None)
              now
        | _, _, _, _ =>
            λ w, (inl (NotNullViolation "orders"),
                  Full.set_orders_id_seq (Full.orders_id_seq w + 1) w)
        end)
       (λ order, Full.ret (reply_json order)))
    (λ error, reply_status 500 "Failed to create order").

(** [initializeCategories()]: the failure of a statement ends the loop and
    is logged, nothing more. *)
Definition defaultCategories : list InsertCategory.t :=
  [ InsertCategory.mk "Men" "men" "#3B82F6" "fas fa-male";
    InsertCategory.mk "Women" "women" "#EC4899" "fas fa-female";
    InsertCategory.mk "Gadgets" "gadgets" "#94A3B8" "fas fa-mobile-alt";
    InsertCategory.mk "Clothing" "clothing" "#F5E6D3" "fas fa-tshirt";
    InsertCategory.mk "Jewelry" "jewelry" "#D4AF37" "fas fa-gem";
    InsertCategory.mk "Gifts" "gifts" "#8B5CF6" "fas fa-gift" ].

Definition initializeCategories (collate : relation string)
    `{∀ x y, Decision (collate x y)} (w : Full.Store) : Full.Store :=
  (Full.bind (FullStorage.getCategories collate) (λ existingCategories,
     if decide (length existingCategories = 0) then
       Full.for_of defaultCategories (λ category,
         Full.bind (FullStorage.createCategory category) (λ _, Full.ret tt))
     else Full.ret tt) w).2.

End MoreRoutes.

(** ** Sequences of cart operations, and what they keep *)

Module CartScenario.
Import Db Storage MoreStorage.

Inductive cart_op :=
  | AddToCart (cartItem : InsertCartItem.t) (now : Z)
  | UpdateCartItem (id : Z) (quantity : Z)
  | RemoveFromCart (id : Z)
  | ClearCart (userId : string).

Definition run_cart_op (s : Store) (op : cart_op) : Store :=
  match op with
  | AddToCart cartItem now => (addToCart cartItem now s).2
  | UpdateCartItem id quantity => (updateCartItem id quantity s).2
  | RemoveFromCart id => (removeFromCart id s).2
  | ClearCart userId => (clearCart userId s).2
  end.

Definition run_cart_ops (ops : list cart_op) (s : Store) : Store :=
  foldl run_cart_op s ops.

(** At most one cart row for a user and a product. *)
Definition cart_pairs_unique (s : Store) : Prop :=
  ∀ userId productId,
    (length (filter (cart_pair userId productId) (cartItems s)) ≤ 1)%nat.

(** The ids of the cart rows differ from one another and the sequence has
    passed them all. *)
Definition cart_ids_fresh (s : Store) : Prop :=
  NoDup (CartItem.id <$> cartItems s)
  ∧ Forall (λ c, (CartItem.id c ≤ cart_items_id_seq s)%Z) (cartItems s).

End CartScenario.

(** ** The approval path *)

Module AdminScenario.
Import Db Storage.

(** The row that [upsertUser({ id, role: 'seller', isApproved: true })]
    writes for [userId] at time [now]. *)
Definition promoted (userId : string) (now : Z) (us : gmap string User.t) : User.t :=
  let userData := UpsertUser.mk userId None None None None
                    (Some "seller") (Some (Some true)) None None in
  match us !! userId with
  | Some u => conflict_set userData now u
  | None => insert_values userData now
  end.

End AdminScenario.

(** ** More sample data *)

Module Demo2.
Import Db Full.

Definition order (id : Z) (userId sellerId : string) (createdAt : Z) : Order.t :=
  Order.mk id userId 1 sellerId 1 "19.99" (Some "pending") (Some createdAt).

Definition store : Full.Store :=
  mkStore Demo.store
    [Category.mk 1 "Men" "men" "#3B82F6" "fas fa-male"]
    [order 1 "ada" "sam" 10; order 2 "bob" "sam" 20]
    1 2 1.

Definition application_body : MoreRoutes.ApplicationBody.t :=
  MoreRoutes.ApplicationBody.mk (Some "someone-else") (Some "bob@example.org")
    (Some "+200") (Some "IBAN 2") (Some (Some "approved")).

(** The byte order of strings, one collation among others. *)
Definition bytewise : relation string := λ a b, String.leb a b = true.

#[global] Instance bytewise_dec a b : Decision (bytewise a b).
Proof. unfold bytewise. apply _. Defined.

End Demo2.

(** * Properties *)

Import Db Storage Routes Scenario.

(** ** Statements of the database *)

Lemma filter_filter_weaken {A} (c d : A → Prop)
    `{∀ x, Decision (c x)} `{∀ x, Decision (d x)} (rows : list A) :
  (∀ x, c x → d x) → filter c (filter d rows) = filter c rows.
Proof.
  intros Hcd. induction rows as [|r rows IH]; [done|].
  rewrite (filter_cons d). destruct (decide (d r)) as [Hd|Hd].
  - rewrite !filter_cons. destruct (decide (c r)); by rewrite IH.
  - rewrite IH, filter_cons. destruct (decide (c r)) as [Hc|]; [|done].
    by destruct Hd; apply Hcd.
Qed.

Section statements.
Context {A : Type} (c : A → Prop) `{∀ x, Decision (c x)}.

Lemma delete_where_keeps (d : A → Prop) `{∀ x, Decision (d x)} (rows : list A) :
  (∀ x, d x → ¬ c x) → filter d (delete_where c rows) = filter d rows.
Proof. intros Hd. unfold delete_where. by apply filter_filter_weaken. Qed.
End statements.

(** ** Favorites *)

Lemma addToFavorites_run favorite now s :
  let productId := InsertFavorite.productId favorite in
  let s1 := set_favorites_id_seq (favorites_id_seq s + 1) s in
  let row := Favorite.mk (favorites_id_seq s + 1)
               (InsertFavorite.userId favorite) productId (Some now) in
  let s2 := set_favorites (λ fs, fs ++ [row]) s1 in
  addToFavorites favorite now s =
    if decide (Exists (favorite_pair (InsertFavorite.userId favorite) productId)
                      (favorites s))
    then (inl (UniqueViolation "favorites_user_id_product_id_pk"), s1)
    else (inr row,
          set_products (λ ps,
            (update_where (λ p, Product.id p = productId)
               (Product.with_favoriteCount
                  (Some (Z.of_nat (length (favorites_of productId s2))))) ps).1) s2).
Proof.
  intros productId s1 row s2.
  unfold addToFavorites, bind, insert_favorite, gets, set_favoriteCount, modify, ret.
  fold productId. by destruct (decide _).
Qed.

Lemma removeFromFavorites_run userId productId s :
  let s1 := set_favorites (delete_where (favorite_pair userId productId)) s in
  removeFromFavorites userId productId s =
    (inr tt,
     set_products (λ ps,
       (update_where (λ p, Product.id p = productId)
          (Product.with_favoriteCount
             (Some (Z.of_nat (length (favorites_of productId s1))))) ps).1) s1).
Proof. done. Qed.







(** C1, as stated, fails on a store the routes themselves build:
    POST /api/products takes favoriteCount from the body, so a seller can
    post a product with a count of 7 and no favorite row, and the favorite
    operations on other products leave that count as it is. *)
Lemma favoriteCount_from_body_counterexample :
  let s := (post_api_products "sam" Demo.counted_body 80 Demo.store).2 in
  let s' := run_favorite_ops [AddToFavorites (InsertFavorite.mk "ada" 1) 81;
                              RemoveFromFavorites "ada" 1] s in
  favoriteCount_consistent Demo.store
  ∧ Exists (λ p, Product.favoriteCount p = Some 7%Z
                 ∧ favorites_of (Product.id p) s' = []) (products s')
  ∧ ¬ favoriteCount_consistent s'.
Proof.
  split; [by repeat constructor|]. split.
  - do 3 apply Exists_cons_tl. apply Exists_cons_hd. by split.
  - intros H. unfold favoriteCount_consistent in H.
    do 3 apply Forall_inv_tail in H. apply Forall_inv in H. discriminate H.
Qed.

(** ** Cart *)

Lemma filter_fmap_stable {A} (c : A → Prop) `{∀ x, Decision (c x)}
    (g : A → A) (rows : list A) :
  (∀ x, c (g x) ↔ c x) → filter c (g <$> rows) = g <$> filter c rows.
Proof.
  intros Hg. induction rows as [|r rows IH]; [done|].
  rewrite fmap_cons, !filter_cons.
  destruct (decide (c (g r))) as [Hc|Hc], (decide (c r)) as [Hr|Hr].
  - by rewrite fmap_cons, IH.
  - destruct Hr. by apply Hg.
  - destruct Hc. by apply Hg.
  - done.
Qed.




(** ** Users *)


(** C3. When an admin sets the status of an application of user U, the
    users table changes exactly when the new status is the string
    "approved": then the row of U is written with role "seller" and
    isApproved true and no other user row changes; with any other status
    the users table is left as it was. *)
Theorem application_status_promotes_iff_approved
    adminId adminRow id newStatus now s a :
  users s !! adminId = Some adminRow →
  User.role adminRow = "admin" →
  Js.first (filter (λ x, SellerApplication.id x = id) (sellerApplications s))
    = Some a →
  let r := patch_api_admin_applications_id adminId id newStatus now s in
  Routes.status r.1 = 200%Z
  ∧ (newStatus = "approved" →
       ∃ u', users r.2 = <[SellerApplication.userId a := u']> (users s)
             ∧ User.role u' = "seller" ∧ User.isApproved u' = Some true)
  ∧ (newStatus ≠ "approved" → users r.2 = users s).
Proof.
  intros Hadmin Hrole Ha r. unfold r, patch_api_admin_applications_id, run, bind.
  unfold getUser, gets. rewrite Hadmin.
  destruct (decide (User.role adminRow ≠ "admin")) as [Hne|_]; [done|].
  unfold updateSellerApplicationStatus, update_where. simpl.
  destruct (filter _ (sellerApplications s)) as [|a0 rest]; [done|].
  injection Ha as ->. simpl.
  destruct (decide (newStatus = "approved")) as [Heq|Hneq].
  - simpl. split; [done|]. split; [|done]. intros _.
    eexists. split; [reflexivity|].
    by destruct (users s !! SellerApplication.userId a).
  - simpl. split; [done|]. by split.
Qed.

Lemma application_status_promotes_iff_approved_witness :
  users Demo.store !! "root" = Some (Demo.user "root" "admin" None)
  ∧ ∃ u', users (patch_api_admin_applications_id "root" 1 "approved" 60
                   Demo.store).2
          = <["ada" := u']> (users Demo.store)
          ∧ User.role u' = "seller" ∧ User.isApproved u' = Some true.
Proof.
  split; [reflexivity|].
  apply (application_status_promotes_iff_approved
           "root" (Demo.user "root" "admin" None) 1 "approved" 60 Demo.store
           (Demo.application 1 "ada") eq_refl eq_refl eq_refl).
  reflexivity.
Defined.

Lemma merged_default {A} (supplied : option A) (prior : A) :
  merged supplied prior (default prior supplied).
Proof. by destruct supplied. Qed.



(** C4, as stated, fails for a payload whose e-mail address another user
    holds: ada's upsert with the address of sam and a new first name is
    refused, and the first name it supplies is not written. *)
Lemma upsertUser_taken_email_counterexample :
  let userData := UpsertUser.mk "ada" (Some (Some "sam@example.org"))
                    (Some (Some "Augusta")) None None None None None None in
  User.email <$> users Demo.store !! "sam" = Some (Some "sam@example.org")
  ∧ upsertUser userData 70 Demo.store
    = (inl (UniqueViolation "users_email_unique"), Demo.store)
  ∧ User.firstName <$> users (upsertUser userData 70 Demo.store).2 !! "ada"
    = Some (Some "Ada").
Proof. repeat split. Qed.

(** ** POST /api/products *)

(** C5. When the caller has no user row, or a user row whose role is
    neither "seller" nor "admin", POST /api/products answers 403 and
    returns the store as it received it: no product row is created. *)
Theorem post_products_forbidden userId body now s :
  (∀ u, users s !! userId = Some u →
        User.role u ≠ "seller" ∧ User.role u ≠ "admin") →
  post_api_products userId body now s
  = (res_status 403 "Only approved sellers can create products", s).
Proof.
  intros Hrole. unfold post_api_products, run, bind, getUser, gets.
  destruct (users s !! userId) as [u|]; [|done].
  by rewrite decide_True by by apply Hrole.
Qed.

Lemma post_products_forbidden_witness :
  post_api_products "ada" Demo.lamp_body 80 Demo.store
  = (res_status 403 "Only approved sellers can create products", Demo.store)
  ∧ post_api_products "nobody" Demo.lamp_body 80 Demo.store
    = (res_status 403 "Only approved sellers can create products", Demo.store).
Proof.
  split; apply post_products_forbidden; intros u Hu; vm_compute in Hu.
  - injection Hu as <-. split; discriminate.
  - discriminate.
Defined.



(** ** DELETE /api/cart/:id and DELETE /api/favorites/:productId *)

Lemma delete_cart_any_caller userId userId' id s :
  delete_api_cart_id userId id s = delete_api_cart_id userId' id s.
Proof. reflexivity. Qed.

Lemma delete_cart_removes_every_owner userId id s c :
  c ∈ cartItems (delete_api_cart_id userId id s).2 ↔
  c ∈ cartItems s ∧ CartItem.id c ≠ id.
Proof.
  unfold delete_api_cart_id, run, bind, removeFromCart, modify, delete_where.
  simpl. rewrite list_elem_of_filter. tauto.
Qed.

(** The sibling route deletes within the favorites of the caller. *)
Lemma delete_favorites_keeps_other_users userId productId s f :
  f ∈ favorites s → Favorite.userId f ≠ userId →
  f ∈ favorites (delete_api_favorites_productId userId productId s).2.
Proof.
  intros Hf Hne. unfold delete_api_favorites_productId, run, bind.
  rewrite removeFromFavorites_run. simpl. unfold delete_where.
  apply list_elem_of_filter. split; [|done]. by intros [? _].
Qed.

(** C6, at the failing input. The only cart row of the sample store
    belongs to bob; DELETE /api/cart/1 sent by ada answers 200 and the row
    is gone. *)
Theorem delete_cart_deletes_row_of_another_user :
  CartItem.userId <$> filter (λ c, CartItem.id c = 1%Z) (cartItems Demo.store)
  = ["bob"]
  ∧ (delete_api_cart_id "ada" 1 Demo.store).1 = res_json (Message "Removed from cart")
  ∧ cartItems (delete_api_cart_id "ada" 1 Demo.store).2 = [].
Proof. repeat split. Qed.

(** ** POST /api/favorites *)

Lemma addToFavorites_present favorite now s :
  Exists (favorite_pair (InsertFavorite.userId favorite)
                        (InsertFavorite.productId favorite)) (favorites s) →
  addToFavorites favorite now s
  = (inl (UniqueViolation "favorites_user_id_product_id_pk"),
     set_favorites_id_seq (favorites_id_seq s + 1) s).
Proof. intros Hex. rewrite addToFavorites_run. simpl. by rewrite decide_True. Qed.

Lemma addToFavorites_makes_present favorite now s newFavorite s1 :
  addToFavorites favorite now s = (inr newFavorite, s1) →
  Exists (favorite_pair (InsertFavorite.userId favorite)
                        (InsertFavorite.productId favorite)) (favorites s1).
Proof.
  rewrite addToFavorites_run. destruct (decide _); [done|]. intros [= _ <-].
  simpl. apply Exists_app. right. by repeat constructor.
Qed.

Lemma favorite_stays_present userId productId ops : ∀ s,
  RemoveFromFavorites userId productId ∉ ops →
  Exists (favorite_pair userId productId) (favorites s) →
  Exists (favorite_pair userId productId) (favorites (run_favorite_ops ops s)).
Proof.
  induction ops as [|op ops IH]; intros s Hops Hex; [done|].
  apply not_elem_of_cons in Hops as [Hop Hops]. simpl. apply IH; [done|].
  destruct op as [favorite now|userId' productId']; simpl.
  - rewrite addToFavorites_run. destruct (decide _); simpl; [done|].
    apply Exists_app. by left.
  - unfold delete_where.
    apply Exists_exists in Hex as (f & Hf & Hu & Hp).
    apply Exists_exists. exists f. split; [|done].
    apply list_elem_of_filter. split; [|done].
    intros [Hu' Hp']. destruct Hop. congruence.
Qed.

(** C7 (amended). After a successful addToFavorites for (userId,
    productId), and after any further favorite operations other than the
    removal of that pair, addToFavorites for the pair is refused with the
    uniqueness violation of the table and writes no row; POST /api/favorites
    answers it with status 500 and the message "Failed to add to
    favorites", which is what its catch block answers to every failure. *)
Theorem duplicate_favorite_is_refused
    userId productId now1 now2 ops s newFavorite s1 :
  addToFavorites (InsertFavorite.mk userId productId) now1 s = (inr newFavorite, s1) →
  RemoveFromFavorites userId productId ∉ ops →
  let s2 := run_favorite_ops ops s1 in
  let again := addToFavorites (InsertFavorite.mk userId productId) now2 s2 in
  again.1 = inl (UniqueViolation "favorites_user_id_product_id_pk")
  ∧ favorites again.2 = favorites s2
  ∧ products again.2 = products s2
  ∧ post_api_favorites userId (Some productId) now2 s2
    = (res_status 500 "Failed to add to favorites", again.2)
  ∧ ∀ error, post_api_favorites_catch error
             = res_status 500 "Failed to add to favorites".
Proof.
  intros Hadd Hops s2 again.
  assert (Hex : Exists (favorite_pair userId productId) (favorites s2)).
  { apply favorite_stays_present; [done|].
    exact (addToFavorites_makes_present _ _ _ _ _ Hadd). }
  assert (Hagain : again = (inl (UniqueViolation "favorites_user_id_product_id_pk"),
                            set_favorites_id_seq (favorites_id_seq s2 + 1) s2)).
  { unfold again. by rewrite addToFavorites_present. }
  repeat split; try by rewrite Hagain.
  unfold post_api_favorites, run, bind. fold again. by rewrite Hagain.
Qed.

Lemma duplicate_favorite_is_refused_witness :
  (post_api_favorites "ada" (Some 1%Z) 42
     (run_favorite_ops [AddToFavorites (InsertFavorite.mk "bob" 1) 41;
                        RemoveFromFavorites "bob" 1]
        (addToFavorites (InsertFavorite.mk "ada" 1) 40 Demo.store).2)).1
  = res_status 500 "Failed to add to favorites".
Proof.
  pose proof (duplicate_favorite_is_refused "ada" 1 40 42
                [AddToFavorites (InsertFavorite.mk "bob" 1) 41;
                 RemoveFromFavorites "bob" 1]
                Demo.store _ _ eq_refl) as H.
  simpl in H. destruct H as (_ & _ & _ & Hpost & _).
  - intros Hin. repeat (apply elem_of_cons in Hin as [Hin|Hin]; [discriminate|]).
    by apply elem_of_nil in Hin.
  - exact (f_equal fst Hpost).
Defined.

(** C7, as stated, fails: the answer to a duplicate add is the generic
    status 500, the very answer the handler gives to an add that fails for
    another reason (here a body without productId). *)
Lemma duplicate_favorite_counterexample :
  let s1 := (post_api_favorites "ada" (Some 1%Z) 40 Demo.store).2 in
  (post_api_favorites "ada" (Some 1%Z) 41 s1).1
  = res_status 500 "Failed to add to favorites"
  ∧ (post_api_favorites "ada" (Some 1%Z) 41 s1).1
    = (post_api_favorites "ada" None 41 s1).1.
Proof. split; reflexivity. Qed.

(** ** Listings *)

Section order_by.
Context {A : Type} (key : A → option Z).

Lemma desc_by_total : Total (desc_by key).
Proof.
  intros r1 r2. unfold desc_by.
  destruct (key r1) as [a|], (key r2) as [b|]; simpl; auto. lia.
Qed.

Lemma desc_by_trans : Transitive (desc_by key).
Proof.
  intros r1 r2 r3. unfold desc_by.
  destruct (key r1) as [a|], (key r2) as [b|], (key r3) as [c|]; simpl;
    auto; try done. lia.
Qed.

Lemma orderBy_desc_sorted rows : StronglySorted (desc_by key) (orderBy_desc key rows).
Proof.
  apply StronglySorted_merge_sort; [apply desc_by_trans | apply desc_by_total].
Qed.

Lemma orderBy_desc_perm rows : orderBy_desc key rows ≡ₚ rows.
Proof. apply merge_sort_Permutation. Qed.

(** Read by position: of two rows with a timestamp or a count, the one
    listed first has the greater or equal key. *)
Lemma sorted_desc_lookup rows i j r1 r2 a b :
  StronglySorted (desc_by key) rows →
  i < j → rows !! i = Some r1 → rows !! j = Some r2 →
  key r1 = Some a → key r2 = Some b → (b ≤ a)%Z.
Proof.
  intros Hsorted. revert i j.
  induction Hsorted as [|r rows Hs IH Hall]; intros i j Hij Hi Hj Ha Hb; [done|].
  destruct j as [|j]; [lia|]. simpl in Hj. destruct i as [|i]; simpl in Hi.
  - injection Hi as ->. rewrite Forall_forall in Hall.
    specialize (Hall r2 (list_elem_of_lookup_2 _ _ _ Hj)).
    unfold desc_by in Hall. by rewrite Ha, Hb in Hall.
  - apply (IH i j); [lia|done..].
Qed.
End order_by.

(** C8. getProducts() lists exactly the approved products, hence never an
    unapproved one, in descending order of createdAt, and reads only.
    getProduct(id), for an id that is a four-byte integer as the ids of the
    column are, returns a row of the table with that id when there is one,
    approved or not, and nothing when there is none; when the row with that
    id is the only one, it is the row returned. *)
Theorem getProducts_approved_getProduct_any s :
  (∃ listed, getProducts None s = (inr listed, s)
     ∧ Forall approved listed
     ∧ listed ≡ₚ filter approved (products s)
     ∧ StronglySorted (desc_by Product.createdAt) listed
     ∧ ∀ i j p q a b, i < j → listed !! i = Some p → listed !! j = Some q →
         Product.createdAt p = Some a → Product.createdAt q = Some b → (b ≤ a)%Z)
  ∧ (∀ id, Pg.int4 id →
       ∃ found, getProduct id s = (inr found, s)
       ∧ match found with
         | Some p => p ∈ products s ∧ Product.id p = id
         | None => ∀ p, p ∈ products s → Product.id p ≠ id
         end)
  ∧ (∀ p, p ∈ products s →
       Pg.int4 (Product.id p) →
       (∀ q, q ∈ products s → Product.id q = Product.id p → q = p) →
       getProduct (Product.id p) s = (inr (Some p), s)).
Proof.
  split; [|split].
  - eexists. split; [reflexivity|].
    pose proof (orderBy_desc_perm Product.createdAt (filter approved (products s)))
      as Hperm.
    pose proof (orderBy_desc_sorted Product.createdAt (filter approved (products s)))
      as Hsorted.
    repeat split; try done.
    + rewrite Hperm. apply Forall_forall. by intros p [? _]%list_elem_of_filter.
    + intros i j p q a b. by apply sorted_desc_lookup.
  - intros id _. eexists. split; [reflexivity|]. unfold Js.first.
    destruct (filter _ (products s)) as [|p rest] eqn:Hf; simpl.
    + intros p Hp Hid.
      by apply (filter_nil_not_elem_of (λ p, Product.id p = id) _ p Hf).
    + assert (Hin : p ∈ filter (λ p, Product.id p = id) (products s))
        by (rewrite Hf; left).
      apply list_elem_of_filter in Hin as [? ?]. done.
  - intros p Hp _ Huniq. unfold getProduct, gets, Js.first.
    destruct (filter _ (products s)) as [|q rest] eqn:Hf; simpl.
    + by destruct (filter_nil_not_elem_of (λ q, Product.id q = Product.id p) _ p Hf).
    + assert (Hin : q ∈ filter (λ q, Product.id q = Product.id p) (products s))
        by (rewrite Hf; left).
      apply list_elem_of_filter in Hin as [Hid Hq]. by rewrite (Huniq q Hq Hid).
Qed.

Lemma getProducts_approved_getProduct_any_witness :
  (getProducts None Demo.store).1
  = inr [Demo.lamp 3 (Some true) 0 30; Demo.lamp 1 (Some true) 0 10]
  ∧ getProduct 2 Demo.store = (inr (Some (Demo.lamp 2 (Some false) 0 20)), Demo.store).
Proof.
  split; [reflexivity|].
  apply (proj2 (proj2 (getProducts_approved_getProduct_any Demo.store))
           (Demo.lamp 2 (Some false) 0 20)).
  - right. left.
  - unfold Pg.int4. simpl. lia.
  - intros q Hq Hid. vm_compute in Hq.
    repeat (apply elem_of_cons in Hq as [->|Hq]; [done || discriminate Hid|]).
    by apply elem_of_nil in Hq.
Defined.

(** C10. getRecommendedProducts(limit) returns the first [limit] rows,
    4 when no limit is given, of the approved products in descending order
    of favoriteCount: the rows returned are approved, sorted, as many as
    the limit allows, and every approved product left out has a count no
    greater than those returned. With three approved products of counts 5,
    3 and 1, stored in any order, and limit 2 it returns the products of
    counts 5 and 3, in this order. *)
Theorem getRecommendedProducts_top_by_favoriteCount :
  (∀ limit s, ∃ top rest,
     getRecommendedProducts limit s = (inr top, s)
     ∧ Forall approved top
     ∧ top ++ rest ≡ₚ filter approved (products s)
     ∧ StronglySorted (desc_by Product.favoriteCount) (top ++ rest)
     ∧ length top = min (default 4 limit) (length (filter approved (products s))))
  ∧ (∀ s, getRecommendedProducts None s = getRecommendedProducts (Some 4) s)
  ∧ (∀ p5 p3 p1 s,
       approved p5 → approved p3 → approved p1 →
       Product.favoriteCount p5 = Some 5%Z →
       Product.favoriteCount p3 = Some 3%Z →
       Product.favoriteCount p1 = Some 1%Z →
       products s ≡ₚ [p5; p3; p1] →
       getRecommendedProducts (Some 2) s = (inr [p5; p3], s)).
Proof.
  split; [|split].
  - intros limit s.
    set (sorted := orderBy_desc Product.favoriteCount (filter approved (products s))).
    exists (take (default 4 limit) sorted), (drop (default 4 limit) sorted).
    split; [reflexivity|].
    assert (Hperm : sorted ≡ₚ filter approved (products s))
      by apply orderBy_desc_perm.
    rewrite take_drop. repeat split.
    + apply Forall_take. rewrite Hperm. apply Forall_forall.
      by intros p [? _]%list_elem_of_filter.
    + done.
    + apply orderBy_desc_sorted.
    + by rewrite length_take, Hperm.
  - done.
  - intros p5 p3 p1 s H5 H3 H1 Hc5 Hc3 Hc1 Hps.
    unfold getRecommendedProducts, gets. simpl.
    assert (Hperm : orderBy_desc Product.favoriteCount (filter approved (products s))
                    ≡ₚ [p5; p3; p1]).
    { rewrite orderBy_desc_perm, Hps. by rewrite !filter_cons_True. }
    assert (Hsorted : StronglySorted (desc_by Product.favoriteCount) [p5; p3; p1]).
    { repeat constructor; unfold desc_by; rewrite ?Hc5, ?Hc3, ?Hc1; simpl; lia. }
    assert (Heq : orderBy_desc Product.favoriteCount (filter approved (products s))
                  = [p5; p3; p1]); [|by rewrite Heq].
    apply (StronglySorted_unique_strong (desc_by Product.favoriteCount));
      [|apply orderBy_desc_sorted|done..].
    intros x1 x2 Hx1 Hx2. rewrite Hperm in Hx1. unfold desc_by.
    repeat (apply elem_of_cons in Hx1 as [->|Hx1]);
      repeat (apply elem_of_cons in Hx2 as [->|Hx2]);
      try (by apply elem_of_nil in Hx1); try (by apply elem_of_nil in Hx2);
      rewrite ?Hc5, ?Hc3, ?Hc1; simpl; intros; done || lia.
Qed.

Lemma getRecommendedProducts_top_by_favoriteCount_witness :
  getRecommendedProducts (Some 2)
    (set_products (λ _, [Demo.lamp 1 (Some true) 3 10; Demo.lamp 2 (Some true) 1 20;
                         Demo.lamp 3 (Some true) 5 30]) Demo.store)
  = (inr [Demo.lamp 3 (Some true) 5 30; Demo.lamp 1 (Some true) 3 10],
     set_products (λ _, [Demo.lamp 1 (Some true) 3 10; Demo.lamp 2 (Some true) 1 20;
                         Demo.lamp 3 (Some true) 5 30]) Demo.store).
Proof.
  apply (proj2 (proj2 getRecommendedProducts_top_by_favoriteCount)
           (Demo.lamp 3 (Some true) 5 30) (Demo.lamp 1 (Some true) 3 10)
           (Demo.lamp 2 (Some true) 1 20)); try reflexivity.
  simpl. rewrite (Permutation_swap (Demo.lamp 1 (Some true) 3 10)).
  apply Permutation_skip. apply Permutation_swap.
Defined.

(** * Further properties of the data-access layer and of the routes *)

Import MoreStorage MoreRoutes CartScenario AdminScenario.

Lemma store_eta (s : Store) :
  mkStore (users s) (products s) (favorites s) (cartItems s)
          (sellerApplications s) (products_id_seq s) (favorites_id_seq s)
          (cart_items_id_seq s) = s.
Proof. by destruct s. Qed.

Lemma first_filter_Some {A} (c : A → Prop) `{∀ x, Decision (c x)} (rows : list A) x :
  Js.first (filter c rows) = Some x → x ∈ rows ∧ c x.
Proof.
  unfold Js.first. intros Hx. apply head_Some_elem_of in Hx.
  apply list_elem_of_filter in Hx. tauto.
Qed.

Lemma first_filter_None {A} (c : A → Prop) `{∀ x, Decision (c x)} (rows : list A) :
  Js.first (filter c rows) = None ↔ Forall (λ x, ¬ c x) rows.
Proof.
  unfold Js.first. rewrite head_None, Forall_forall. split.
  - intros Hf x Hx Hc. by apply (filter_nil_not_elem_of c rows x).
  - intros Hall. destruct (filter c rows) as [|x l] eqn:Hf; [done|].
    assert (Hx : x ∈ filter c rows) by (rewrite Hf; left).
    apply list_elem_of_filter in Hx as [Hc Hx]. by destruct (Hall x Hx).
Qed.

Lemma update_where_no_match {A} (c : A → Prop) `{∀ x, Decision (c x)}
    (f : A → A) (rows : list A) :
  Forall (λ x, ¬ c x) rows → update_where c f rows = (rows, []).
Proof.
  intros Hall. unfold update_where. f_equal.
  - induction Hall as [|x l Hx _ IH]; [done|].
    rewrite fmap_cons, IH. by rewrite decide_False.
  - induction Hall as [|x l Hx _ IH]; [done|].
    by rewrite filter_cons_False.
Qed.

(** ** Favorites: lookup, removal, join *)

Lemma isProductFavorited_run userId productId s :
  isProductFavorited userId productId s
  = (inr (bool_decide (Exists (favorite_pair userId productId) (favorites s))), s).
Proof.
  unfold isProductFavorited, bind, gets, ret. do 2 f_equal.
  destruct (Js.first _) as [f|] eqn:Hf.
  - apply first_filter_Some in Hf as [Hin Hpair].
    rewrite bool_decide_eq_true_2; [done|]. apply Exists_exists. eauto.
  - apply first_filter_None in Hf.
    rewrite bool_decide_eq_false_2; [done|]. by apply Forall_Exists_neg.
Qed.



(** X3. getUserFavorites is the inner join: it lists a product exactly
    when the product is in the table and the user has a favorite row for
    its id. A favorite whose product is gone is skipped, without error, and
    the call writes nothing. *)
Theorem getUserFavorites_inner_join userId s :
  ∃ listed, getUserFavorites userId s = (inr listed, s)
    ∧ (∀ p, p ∈ listed ↔
            p ∈ products s
            ∧ Exists (favorite_pair userId (Product.id p)) (favorites s))
    ∧ ∀ f, f ∈ favorites s → Favorite.userId f = userId →
        Forall (λ p, Product.id p ≠ Favorite.productId f) (products s) →
        Forall (λ p, Product.id p ≠ Favorite.productId f) listed.
Proof.
  eexists. split; [reflexivity|]. split.
  - intros p. rewrite list_elem_of_bind. split.
    + intros (f & Hp & Hf). apply list_elem_of_filter in Hp as [Hid Hp].
      apply list_elem_of_filter in Hf as [Hu Hf]. split; [done|].
      apply Exists_exists. exists f. by repeat split.
    + intros [Hp (f & Hf & Hu & Hid)%Exists_exists]. exists f.
      rewrite !list_elem_of_filter. by repeat split.
  - intros f Hf Hu Hgone. apply Forall_forall. intros p Hp.
    apply list_elem_of_bind in Hp as (f' & Hp & _).
    apply list_elem_of_filter in Hp as [_ Hp].
    by apply (proj1 (Forall_forall _ _) Hgone).
Qed.

Lemma getUserFavorites_inner_join_witness :
  ∃ listed,
    getUserFavorites "ada"
      (set_favorites (λ _, [Favorite.mk 1 "ada" 3 (Some 1%Z);
                            Favorite.mk 2 "ada" 9 (Some 2%Z)]) Demo.store)
    = (inr listed,
       set_favorites (λ _, [Favorite.mk 1 "ada" 3 (Some 1%Z);
                            Favorite.mk 2 "ada" 9 (Some 2%Z)]) Demo.store)
    ∧ Forall (λ p, Product.id p ≠ 9%Z) listed.
Proof.
  destruct (getUserFavorites_inner_join "ada"
              (set_favorites (λ _, [Favorite.mk 1 "ada" 3 (Some 1%Z);
                                    Favorite.mk 2 "ada" 9 (Some 2%Z)]) Demo.store))
    as (listed & Hrun & _ & Hskip).
  exists listed. split; [exact Hrun|].
  apply (Hskip (Favorite.mk 2 "ada" 9 (Some 2%Z))).
  - right. left.
  - reflexivity.
  - repeat constructor; discriminate.
Defined.

(** ** Products: listings, lookup, removal, update *)

Lemma filter_unique_key {A} (key : A → Z) (rows : list A) x :
  NoDup (key <$> rows) → x ∈ rows → filter (λ y, key y = key x) rows = [x].
Proof.
  induction rows as [|r rows IH]; intros Hnd Hx; [by apply elem_of_nil in Hx|].
  rewrite fmap_cons in Hnd. apply NoDup_cons in Hnd as [Hr Hnd].
  rewrite filter_cons. apply elem_of_cons in Hx as [->|Hx].
  - rewrite decide_True by done. f_equal.
    destruct (filter _ rows) as [|y l] eqn:Hf; [done|].
    assert (Hy : y ∈ filter (λ y, key y = key r) rows) by (rewrite Hf; left).
    apply list_elem_of_filter in Hy as [Hk Hy]. destruct Hr.
    rewrite <-Hk. by apply list_elem_of_fmap_2.
  - rewrite decide_False; [by apply IH|].
    intros Hk. destruct Hr. rewrite Hk. by apply list_elem_of_fmap_2.
Qed.



(** X5. Every product getRecommendedProducts returns is one getProducts()
    lists; with limit 0 it returns nothing, and with a limit that is at
    least the number of listed products it returns them all. *)
Theorem getRecommendedProducts_within_getProducts limit s :
  ∃ top listed,
    getRecommendedProducts limit s = (inr top, s)
    ∧ getProducts None s = (inr listed, s)
    ∧ (∀ p, p ∈ top → p ∈ listed)
    ∧ (limit = Some 0 → top = [])
    ∧ ((length listed ≤ default 4 limit)%nat → top ≡ₚ listed).
Proof.
  do 2 eexists. split; [reflexivity|]. split; [reflexivity|].
  split; [|split].
  - intros p Hp. apply elem_of_take in Hp as (i & Hp & _).
    apply list_elem_of_lookup_2 in Hp.
    rewrite orderBy_desc_perm. by rewrite orderBy_desc_perm in Hp.
  - by intros ->.
  - intros Hlen. rewrite take_ge.
    + by rewrite !orderBy_desc_perm.
    + rewrite orderBy_desc_perm. by rewrite orderBy_desc_perm in Hlen.
Qed.

Lemma getRecommendedProducts_within_getProducts_witness :
  ∃ top listed,
    getRecommendedProducts (Some 5) Demo.store = (inr top, Demo.store)
    ∧ getProducts None Demo.store = (inr listed, Demo.store)
    ∧ top ≡ₚ listed.
Proof.
  destruct (getRecommendedProducts_within_getProducts (Some 5) Demo.store)
    as (top & listed & Htop & Hlisted & _ & _ & Hall).
  exists top, listed. repeat split; [exact Htop|exact Hlisted|].
  apply Hall. injection Hlisted as <-. vm_compute. lia.
Defined.

Lemma getProduct_appended id row s :
  (getProduct id (set_products (λ ps, ps ++ [row]) s)).1
  = inr (match (getProduct id s).1 with
         | inr (Some p) => Some p
         | _ => if decide (Product.id row = id) then Some row else None
         end).
Proof.
  unfold getProduct, gets, Js.first. simpl. rewrite filter_app.
  destruct (filter _ (products s)) as [|p l]; simpl; [|done].
  rewrite filter_cons, filter_nil. by destruct (decide _).
Qed.

(** X6. A product inserted by createProduct with values that the columns
    take as they are (a two-place decimal price, four-byte integers, the id
    drawn included), on a table where that id is not in use, is the one
    getProduct returns for its id; the lookup of every other four-byte id
    answers as before; and getProducts() lists the new product exactly when
    it was inserted with isApproved true. *)
Theorem createProduct_then_getProduct product now s :
  Forall (λ p, Product.id p ≠ (products_id_seq s + 1)%Z) (products s) →
  Pg.product_values product →
  Pg.int4 (products_id_seq s + 1) →
  ∃ newProduct s',
    createProduct product now s = (inr newProduct, s')
    ∧ Product.price newProduct = InsertProduct.price product
    ∧ getProduct (Product.id newProduct) s' = (inr (Some newProduct), s')
    ∧ (∀ id, Pg.int4 id → id ≠ Product.id newProduct →
             (getProduct id s').1 = (getProduct id s).1)
    ∧ ∃ listed, getProducts None s' = (inr listed, s')
        ∧ (newProduct ∈ listed ↔
           InsertProduct.isApproved product = Some (Some true)).
Proof.
  intros Hfresh _ _. do 2 eexists. split; [reflexivity|].
  apply (first_filter_None (λ p, Product.id p = (products_id_seq s + 1)%Z))
    in Hfresh.
  split; [done|]. split; [|split].
  - apply injective_projections; [|done].
    rewrite (getProduct_appended _ _ (set_products_id_seq _ s)).
    unfold getProduct, gets. simpl. unfold Js.first in Hfresh |- *.
    rewrite Hfresh. by rewrite decide_True.
  - intros id _ Hid.
    rewrite (getProduct_appended _ _ (set_products_id_seq _ s)).
    unfold getProduct, gets. simpl. simpl in Hid.
    destruct (Js.first (filter (λ p, Product.id p = id) (products s)));
      [done|].
    rewrite decide_False; [done|congruence].
  - eexists. split; [reflexivity|].
    rewrite orderBy_desc_perm. simpl. rewrite list_elem_of_filter.
    unfold approved. simpl. split.
    + intros [Ha _]. by destruct (InsertProduct.isApproved product) as [[[]|]|].
    + intros ->. split; [done|]. apply elem_of_app. right. left.
Qed.

Lemma createProduct_then_getProduct_witness :
  ∃ newProduct s',
    createProduct (InsertProduct.mk "Vase" "A vase" "5.00" "/v.png" "sam" 2
                     None None) 90 Demo.store
    = (inr newProduct, s')
    ∧ getProduct (Product.id newProduct) s' = (inr (Some newProduct), s').
Proof.
  destruct (createProduct_then_getProduct
              (InsertProduct.mk "Vase" "A vase" "5.00" "/v.png" "sam" 2 None None)
              90 Demo.store)
    as (newProduct & s' & Hrun & _ & Hget & _).
  - repeat constructor; discriminate.
  - apply (bool_decide_unpack _). vm_compute. exact I.
  - unfold Pg.int4. simpl. lia.
  - by exists newProduct, s'.
Defined.

Lemma post_api_products_run userId user body now s productData :
  users s !! userId = Some user →
  User.role user = "seller" ∨ User.role user = "admin" →
  insertProductSchema_parse body = ret productData →
  post_api_products userId body now s
  = let product :=
      Product.mk (products_id_seq s + 1)
        (InsertProduct.name productData) (InsertProduct.description productData)
        (InsertProduct.price productData) (InsertProduct.imageUrl productData)
        userId (InsertProduct.categoryId productData)
        (Some (bool_decide (User.role user = "admin")))
        (default (Some 0%Z) (InsertProduct.favoriteCount productData))
        (Some now) (Some now) in
    (res_json (OfProduct product),
     set_products (λ ps, ps ++ [product])
                  (set_products_id_seq (products_id_seq s + 1) s)).
Proof.
  intros Hu Hrole Hparse. unfold post_api_products, run, bind, getUser, gets.
  rewrite Hu. rewrite decide_False by (intros [? ?]; by destruct Hrole).
  by rewrite Hparse.
Qed.

(** X7. What a seller posts stays out of the public listing and can be
    fetched by id: after POST /api/products by a seller, with a body whose
    values the columns take as they are (a two-place decimal price,
    four-byte integers, the id drawn included) and on a table where that id
    is not in use, getProducts() answers as before and
    GET /api/products/:id answers 200 with the new product; after the same
    request by an admin, getProducts() lists the new product. *)
Theorem posted_product_listed_only_for_admin userId user body now s productData :
  users s !! userId = Some user →
  insertProductSchema_parse body = ret productData →
  Forall (λ p, Product.id p ≠ (products_id_seq s + 1)%Z) (products s) →
  Pg.product_values productData →
  Pg.int4 (products_id_seq s + 1) →
  let posted := post_api_products userId body now s in
  (User.role user = "seller" →
     (getProducts None posted.2).1 = (getProducts None s).1
     ∧ ∃ product, posted.1 = res_json (OfProduct product)
         ∧ get_api_products_id (Product.id product) posted.2
           = (res_json (OfProduct product), posted.2))
  ∧ (User.role user = "admin" →
       ∃ product listed, posted.1 = res_json (OfProduct product)
         ∧ (getProducts None posted.2).1 = inr listed
         ∧ product ∈ listed).
Proof.
  intros Hu Hparse Hfresh _ _ posted.
  apply (first_filter_None (λ p, Product.id p = (products_id_seq s + 1)%Z))
    in Hfresh.
  split; intros Hrole.
  - unfold posted. rewrite (post_api_products_run _ user _ _ _ productData);
      [|done|by left|done].
    rewrite Hrole. simpl. split.
    + unfold getProducts, gets. simpl. do 2 f_equal.
      rewrite filter_app, filter_cons_False, filter_nil, app_nil_r; done.
    + eexists. split; [reflexivity|]. simpl.
      unfold get_api_products_id, run, bind, getProduct, gets. simpl.
      rewrite filter_app. unfold Js.first in Hfresh. apply head_None in Hfresh.
      rewrite Hfresh. simpl. rewrite filter_cons_True by done. done.
  - unfold posted. rewrite (post_api_products_run _ user _ _ _ productData);
      [|done|by right|done].
    rewrite Hrole. simpl.
    do 2 eexists. split; [reflexivity|]. split; [reflexivity|].
    rewrite orderBy_desc_perm. simpl. apply list_elem_of_filter.
    split; [done|]. apply elem_of_app. right. left.
Qed.

Lemma posted_product_listed_only_for_admin_witness :
  (getProducts None (post_api_products "sam" Demo.lamp_body 80 Demo.store).2).1
  = (getProducts None Demo.store).1.
Proof.
  apply (posted_product_listed_only_for_admin "sam"
           (Demo.user "sam" "seller" (Some "sam@example.org"))
           Demo.lamp_body 80 Demo.store _ eq_refl eq_refl).
  - repeat constructor; discriminate.
  - apply (bool_decide_unpack _). vm_compute. exact I.
  - unfold Pg.int4. simpl. lia.
  - reflexivity.
Defined.

(** X8. deleteProduct of a four-byte id removes the product and leaves
    everything that refers to it: afterwards getProduct finds nothing for
    the id and
    GET /api/products/:id answers 404, the lookup of every other id answers
    as before, the favorite and cart rows are all still there, so that
    isProductFavorited answers as before for the deleted product, while
    getUserFavorites lists no product of that id any more. *)
Theorem deleteProduct_leaves_references id s :
  Pg.int4 id →
  let s' := (deleteProduct id s).2 in
  (deleteProduct id s).1 = inr tt
  ∧ getProduct id s' = (inr None, s')
  ∧ get_api_products_id id s' = (res_status 404 "Product not found", s')
  ∧ (∀ id', Pg.int4 id' → id' ≠ id →
            (getProduct id' s').1 = (getProduct id' s).1)
  ∧ favorites s' = favorites s
  ∧ cartItems s' = cartItems s
  ∧ (∀ userId, (isProductFavorited userId id s').1
               = (isProductFavorited userId id s).1)
  ∧ ∀ userId, ∃ listed, getUserFavorites userId s' = (inr listed, s')
      ∧ Forall (λ p, Product.id p ≠ id) listed.
Proof.
  intros _ s'.
  assert (Hps : products s' = filter (λ p, ¬ Product.id p = id) (products s))
    by done.
  assert (Hnone : Js.first (filter (λ p, Product.id p = id) (products s')) = None).
  { apply first_filter_None, Forall_forall. intros p Hp. rewrite Hps in Hp.
    by apply list_elem_of_filter in Hp as [? _]. }
  split; [done|]. split; [|split; [|split; [|split; [|split; [|split]]]]].
  - unfold getProduct, gets. by rewrite Hnone.
  - unfold get_api_products_id, run, bind, getProduct, gets. by rewrite Hnone.
  - intros id' _ Hid. unfold getProduct, gets. simpl. do 2 f_equal.
    apply (delete_where_keeps (λ p, Product.id p = id)). intros p. congruence.
  - done.
  - done.
  - intros userId. by rewrite !isProductFavorited_run.
  - intros userId. eexists. split; [reflexivity|].
    apply Forall_forall. intros p Hp.
    apply list_elem_of_bind in Hp as (f & Hp & _).
    apply list_elem_of_filter in Hp as [_ Hp]. rewrite Hps in Hp.
    by apply list_elem_of_filter in Hp as [? _].
Qed.

Lemma deleteProduct_leaves_references_witness :
  (getProduct 1 (deleteProduct 3 Demo.store).2).1 = (getProduct 1 Demo.store).1.
Proof.
  apply (deleteProduct_leaves_references 3 Demo.store);
    [unfold Pg.int4; lia | unfold Pg.int4; lia | discriminate].
Defined.

Lemma patch_set_law product now p : patch_law product p (patch_set product now p).
Proof. unfold patch_law, patch_set. simpl. repeat split; apply merged_default. Qed.

(** X9. For a four-byte id and a payload whose values the columns take
    as they are (a two-place decimal price, four-byte integers):
    updateProduct on an id that no row has answers undefined and leaves the
    store as it was. On the id of a row, ids being unique and the update
    not moving the row onto the id of another one, it answers the updated
    row, which replaces the former one in the table, every other row
    staying as it was: the fields the payload supplies are overwritten,
    those it omits are kept, and updatedAt is the time of the call. *)
Theorem updateProduct_partial_merge id product now s :
  Pg.int4 id →
  patch_values product →
  (Forall (λ p, Product.id p ≠ id) (products s) →
   updateProduct id product now s = (inr None, s))
  ∧ (∀ p, p ∈ products s → Product.id p = id →
       NoDup (Product.id <$> products s) →
       ¬ id_taken id product (products s) →
       ∃ s', updateProduct id product now s
             = (inr (Some (patch_set product now p)), s')
         ∧ (∀ q, q ∈ products s' ↔
                 q = patch_set product now p
                 ∨ (q ∈ products s ∧ Product.id q ≠ id))
         ∧ patch_law product p (patch_set product now p)
         ∧ Product.updatedAt (patch_set product now p) = Some now).
Proof.
  intros _ _. split.
  - intros Hnone. unfold updateProduct.
    rewrite decide_False.
    + rewrite (update_where_no_match (λ p, Product.id p = id)) by exact Hnone.
      simpl. f_equal. unfold set_products. by rewrite store_eta.
    + unfold id_taken. destruct (ProductPatch.id product); [|tauto].
      intros (_ & (q & Hq & Hqid)%Exists_exists & _).
      by apply (proj1 (Forall_forall _ _) Hnone q).
  - intros p Hp Hid Hnd Hfree. unfold updateProduct.
    rewrite decide_False by done. unfold update_where.
    assert (Hone : filter (λ q, Product.id q = id) (products s) = [p]).
    { rewrite <-Hid. by apply filter_unique_key. }
    rewrite Hone. eexists. split; [reflexivity|]. split; [|split].
    + intros q. simpl. rewrite list_elem_of_fmap. split.
      * intros (q0 & -> & Hq0).
        destruct (decide (Product.id q0 = id)) as [Hq|Hq]; [left|by right].
        f_equal.
        assert (Hin : q0 ∈ filter (λ q, Product.id q = id) (products s))
          by by apply list_elem_of_filter.
        rewrite Hone in Hin. by apply list_elem_of_singleton in Hin.
      * intros [->|[Hq Hne]].
        -- exists p. by rewrite decide_True.
        -- exists q. by rewrite decide_False.
    + apply patch_set_law.
    + done.
Qed.

Lemma updateProduct_partial_merge_witness :
  updateProduct 9 (ProductPatch.mk None (Some "Torch") None (Some "24.50") None
                     None None None None None None) 95 Demo.store
  = (inr None, Demo.store)
  ∧ ∃ s', updateProduct 2 (ProductPatch.mk None (Some "Torch") None (Some "24.50")
                             None None None (Some (Some true)) None None None)
            95 Demo.store
          = (inr (Some (patch_set
                          (ProductPatch.mk None (Some "Torch") None (Some "24.50")
                             None None None (Some (Some true)) None None None)
                          95 (Demo.lamp 2 (Some false) 0 20))), s').
Proof.
  split.
  - apply (proj1 (updateProduct_partial_merge 9
                    (ProductPatch.mk None (Some "Torch") None (Some "24.50") None
                       None None None None None None) 95 Demo.store
                    ltac:(unfold Pg.int4; lia)
                    ltac:(apply (bool_decide_unpack _); vm_compute; exact I))).
    repeat constructor; discriminate.
  - destruct (proj2 (updateProduct_partial_merge 2
                       (ProductPatch.mk None (Some "Torch") None (Some "24.50")
                          None None None (Some (Some true)) None None None)
                       95 Demo.store
                       ltac:(unfold Pg.int4; lia)
                       ltac:(apply (bool_decide_unpack _); vm_compute; exact I))
                (Demo.lamp 2 (Some false) 0 20))
      as (s' & Hrun & _).
    + right. left.
    + reflexivity.
    + apply (bool_decide_unpack _). vm_compute. exact I.
    + intros [].
    + by exists s'.
Defined.

(** ** Cart: what every sequence of operations keeps *)

Lemma addToCart_inserts cartItem now s :
  Js.first (filter (cart_pair (InsertCartItem.userId cartItem)
                              (InsertCartItem.productId cartItem)) (cartItems s))
  = None →
  addToCart cartItem now s
  = let row := CartItem.mk (cart_items_id_seq s + 1)
                 (InsertCartItem.userId cartItem) (InsertCartItem.productId cartItem)
                 (default (Some 1%Z) (InsertCartItem.quantity cartItem)) (Some now) in
    (inr (Some row),
     set_cartItems (λ cs, cs ++ [row])
                   (set_cart_items_id_seq (cart_items_id_seq s + 1) s)).
Proof. intros Hnone. unfold addToCart, bind, gets. by rewrite Hnone. Qed.

Lemma addToCart_updates cartItem now s existingItem :
  Js.first (filter (cart_pair (InsertCartItem.userId cartItem)
                              (InsertCartItem.productId cartItem)) (cartItems s))
  = Some existingItem →
  addToCart cartItem now s
  = let quantity := (Js.or_num (CartItem.quantity existingItem) 0
                     + Js.or_num (mjoin (InsertCartItem.quantity cartItem)) 1)%Z in
    (inr (Js.first (CartItem.with_quantity (Some quantity)
                      <$> filter (λ c, CartItem.id c = CartItem.id existingItem)
                                 (cartItems s))),
     set_cartItems (λ _,
       (λ c, if decide (CartItem.id c = CartItem.id existingItem)
             then CartItem.with_quantity (Some quantity) c else c)
       <$> cartItems s) s).
Proof. intros Hsome. unfold addToCart, bind, gets. by rewrite Hsome. Qed.

Lemma length_filter_filter_le {A} (c d : A → Prop)
    `{∀ x, Decision (c x)} `{∀ x, Decision (d x)} (rows : list A) :
  (length (filter c (filter d rows)) ≤ length (filter c rows))%nat.
Proof.
  induction rows as [|r rows IH]; [done|].
  rewrite (filter_cons d), (filter_cons c r rows).
  destruct (decide (d r)).
  - rewrite filter_cons. destruct (decide (c r)); simpl; lia.
  - destruct (decide (c r)); simpl; lia.
Qed.

Lemma requantified_pairs q (P : CartItem.t → Prop) `{∀ c, Decision (P c)}
    userId productId (rows : list CartItem.t) :
  length (filter (cart_pair userId productId)
            ((λ c, if decide (P c) then CartItem.with_quantity q c else c) <$> rows))
  = length (filter (cart_pair userId productId) rows).
Proof.
  rewrite filter_fmap_stable, length_fmap; [done|].
  intros c. by destruct (decide (P c)).
Qed.

Lemma run_cart_op_pairs_unique op s :
  cart_pairs_unique s → cart_pairs_unique (run_cart_op s op).
Proof.
  intros Hs userId productId. specialize (Hs userId productId) as Hup.
  destruct op as [cartItem now|id quantity|id|userId']; simpl.
  - destruct (Js.first (filter (cart_pair (InsertCartItem.userId cartItem)
                                  (InsertCartItem.productId cartItem))
                               (cartItems s))) as [e|] eqn:He.
    + rewrite (addToCart_updates _ _ _ e He). simpl.
      by rewrite requantified_pairs.
    + rewrite (addToCart_inserts _ _ _ He). simpl.
      rewrite filter_app, length_app, filter_cons, filter_nil.
      destruct (decide (cart_pair userId productId _)) as [[Hu Hp]|_];
        simpl in *; [|lia].
      subst. unfold Js.first in He. apply head_None in He. rewrite He. simpl. lia.
  - unfold updateCartItem, update_where. simpl. by rewrite requantified_pairs.
  - unfold delete_where. etrans; [apply length_filter_filter_le|done].
  - unfold delete_where. etrans; [apply length_filter_filter_le|done].
Qed.

(** X10. At most one cart row per user and product: a store that has this
    property keeps it through every sequence of addToCart, updateCartItem,
    removeFromCart and clearCart calls. *)
Theorem cart_pairs_stay_unique ops s :
  cart_pairs_unique s → cart_pairs_unique (run_cart_ops ops s).
Proof.
  revert s. induction ops as [|op ops IH]; intros s Hs; [done|].
  simpl. by apply IH, run_cart_op_pairs_unique.
Qed.

Lemma cart_pairs_stay_unique_witness :
  cart_pairs_unique
    (run_cart_ops [AddToCart (InsertCartItem.mk "ada" 3 None) 50;
                   AddToCart (InsertCartItem.mk "ada" 3 (Some (Some 4%Z))) 51;
                   UpdateCartItem 1 7; AddToCart (InsertCartItem.mk "bob" 3 None) 52;
                   RemoveFromCart 2; ClearCart "bob"]
       Demo.store).
Proof.
  apply cart_pairs_stay_unique. intros userId productId.
  etrans; [apply length_filter|]. simpl. lia.
Defined.

Lemma run_cart_op_ids_fresh op s :
  cart_ids_fresh s → cart_ids_fresh (run_cart_op s op).
Proof.
  intros [Hnd Hle].
  assert (Hsame : ∀ q (P : CartItem.t → Prop) `{∀ c, Decision (P c)},
            CartItem.id <$> ((λ c, if decide (P c)
                                   then CartItem.with_quantity q c else c)
                             <$> cartItems s)
            = CartItem.id <$> cartItems s).
  { intros q P ?. rewrite <-list_fmap_compose. apply list_fmap_ext.
    intros _ c _. simpl. by destruct (decide (P c)). }
  assert (Hkeep : ∀ q (P : CartItem.t → Prop) `{∀ c, Decision (P c)},
            Forall (λ c, (CartItem.id c ≤ cart_items_id_seq s)%Z)
                   ((λ c, if decide (P c)
                          then CartItem.with_quantity q c else c)
                    <$> cartItems s)).
  { intros q P ?. apply Forall_fmap. eapply Forall_impl; [exact Hle|].
    intros c Hc. simpl. by destruct (decide (P c)). }
  destruct op as [cartItem now|id quantity|id|userId']; simpl.
  - destruct (Js.first (filter (cart_pair (InsertCartItem.userId cartItem)
                                  (InsertCartItem.productId cartItem))
                               (cartItems s))) as [e|] eqn:He.
    + rewrite (addToCart_updates _ _ _ e He). split; simpl.
      * by rewrite Hsame.
      * apply Hkeep.
    + rewrite (addToCart_inserts _ _ _ He). split; simpl.
      * rewrite fmap_app. apply NoDup_app. split; [done|]. split.
        -- intros i Hi Hin. apply list_elem_of_singleton in Hin. subst i.
           apply list_elem_of_fmap in Hi as (c & Hid & Hc).
           apply (proj1 (Forall_forall _ _) Hle) in Hc. simpl in Hid. lia.
        -- apply NoDup_singleton.
      * apply Forall_app. split.
        -- eapply Forall_impl; [exact Hle|]. intros c Hc. simpl in *. lia.
        -- repeat constructor. simpl. lia.
  - unfold updateCartItem, update_where. split; simpl.
    + by rewrite Hsame.
    + apply Hkeep.
  - unfold delete_where. split; simpl.
    + eapply sublist_NoDup; [exact Hnd|]. apply fmap_sublist, sublist_filter.
    + apply Forall_forall. intros c [_ Hc]%list_elem_of_filter.
      by apply (proj1 (Forall_forall _ _) Hle).
  - unfold delete_where. split; simpl.
    + eapply sublist_NoDup; [exact Hnd|]. apply fmap_sublist, sublist_filter.
    + apply Forall_forall. intros c [_ Hc]%list_elem_of_filter.
      by apply (proj1 (Forall_forall _ _) Hle).
Qed.

(** X11. The ids of the cart rows stay pairwise distinct and at most the
    value of the sequence through every sequence of cart operations, so an
    insert never meets its id in the table. *)
Theorem cart_ids_stay_fresh ops s :
  cart_ids_fresh s → cart_ids_fresh (run_cart_ops ops s).
Proof.
  revert s. induction ops as [|op ops IH]; intros s Hs; [done|].
  simpl. by apply IH, run_cart_op_ids_fresh.
Qed.

Lemma cart_ids_stay_fresh_witness :
  cart_ids_fresh
    (run_cart_ops [AddToCart (InsertCartItem.mk "ada" 3 None) 50;
                   RemoveFromCart 1;
                   AddToCart (InsertCartItem.mk "bob" 3 None) 52]
       Demo.store).
Proof.
  apply cart_ids_stay_fresh. split.
  - apply (bool_decide_unpack _). vm_compute. exact I.
  - repeat constructor. simpl. lia.
Defined.

(** X12. clearCart empties the cart of the user and of nobody else:
    afterwards getUserCart answers the empty list for the user and, for
    every other user, what it answered before. *)
Theorem clearCart_empties_one_cart userId s :
  let s' := (clearCart userId s).2 in
  (clearCart userId s).1 = inr tt
  ∧ getUserCart userId s' = (inr [], s')
  ∧ ∀ other, other ≠ userId →
      (getUserCart other s').1 = (getUserCart other s).1.
Proof.
  intros s'. split; [done|]. split.
  - unfold getUserCart, gets. f_equal. f_equal.
    destruct (filter _ (cartItems s')) as [|c l] eqn:Hf; [done|].
    assert (Hc : c ∈ filter (λ c, CartItem.userId c = userId) (cartItems s'))
      by (rewrite Hf; left).
    apply list_elem_of_filter in Hc as [Hu Hc]. unfold s' in Hc. simpl in Hc.
    unfold delete_where in Hc. by apply list_elem_of_filter in Hc as [? _].
  - intros other Hne. unfold getUserCart, gets. simpl. f_equal.
    apply (delete_where_keeps (λ c, CartItem.userId c = userId)).
    intros c. congruence.
Qed.

Lemma clearCart_empties_one_cart_witness :
  (getUserCart "bob" (clearCart "ada" Demo.store).2).1
  = (getUserCart "bob" Demo.store).1.
Proof.
  apply (proj2 (proj2 (clearCart_empties_one_cart "ada" Demo.store))).
  discriminate.
Defined.



Lemma filter_fmap_fixed {A} (c : A → Prop) `{∀ x, Decision (c x)}
    (g : A → A) (rows : list A) :
  (∀ x, c (g x) ↔ c x) → (∀ x, x ∈ rows → c x → g x = x) →
  filter c (g <$> rows) = filter c rows.
Proof.
  intros Hg Hfix. rewrite filter_fmap_stable by done.
  rewrite <-(list_fmap_id (filter c rows)) at 2. apply list_fmap_ext.
  intros i x Hx. apply list_elem_of_lookup_2, list_elem_of_filter in Hx as [? ?].
  by apply Hfix.
Qed.

(** X14. POST /api/cart works within the cart of the caller. Take a store
    whose cart ids are fresh, a product id and a quantity that an integer
    column takes (the quantity of the body, 1 when the body has none), a
    next cart id within the column, and, where the caller has a row for
    the product already, a sum of its quantity and the posted one that
    the column takes as well. Then the route answers 200 with a cart row
    of the caller and the product, which is in the table afterwards, and
    the cart rows of every other user are the same as before. When the
    caller had no row for the product, the row holds the quantity of the
    body, 1 when the body has none. *)
Theorem post_api_cart_within_own_cart userId productId quantity now s :
  cart_ids_fresh s →
  Pg.int4 productId →
  Pg.int4 (cart_items_id_seq s + 1) →
  Pg.int4_or_null (default (Some 1%Z) quantity) →
  Forall (λ e, cart_pair userId productId e →
               Pg.int4 (Js.or_num (CartItem.quantity e) 0
                        + Js.or_num (default (Some 1%Z) quantity) 1))
         (cartItems s) →
  let posted := post_api_cart userId productId quantity now s in
  (∃ row, posted.1 = reply_json (Some row)
          ∧ row ∈ cartItems posted.2
          ∧ CartItem.userId row = userId
          ∧ CartItem.productId row = productId
          ∧ (filter (cart_pair userId productId) (cartItems s) = [] →
             CartItem.quantity row = default (Some 1%Z) quantity))
  ∧ filter (λ c, CartItem.userId c ≠ userId) (cartItems posted.2)
    = filter (λ c, CartItem.userId c ≠ userId) (cartItems s).
Proof.
  intros [Hnd Hle] _ _ _ _ posted. unfold posted, post_api_cart, answer, bind.
  destruct (Js.first (filter (cart_pair userId productId) (cartItems s)))
    as [e|] eqn:He.
  - rewrite (addToCart_updates
               (InsertCartItem.mk userId productId
                  (Some (default (Some 1%Z) quantity))) now s e He).
    pose proof (first_filter_Some _ _ _ He) as [Hin [Hu Hp]].
    rewrite (filter_unique_key CartItem.id) by done. simpl. split.
    + eexists. split; [reflexivity|]. split; [|split; [done|split; [done|]]].
      * apply list_elem_of_fmap. exists e. by rewrite decide_True.
      * intros Hempty. unfold Js.first in He. by rewrite Hempty in He.
    + apply filter_fmap_fixed.
      * intros c. by destruct (decide _).
      * intros c Hc Hother. rewrite decide_False; [done|]. intros Hid.
        assert (Hce : c ∈ filter (λ y, CartItem.id y = CartItem.id e) (cartItems s))
          by by apply list_elem_of_filter.
        rewrite (filter_unique_key CartItem.id) in Hce by done.
        apply list_elem_of_singleton in Hce. by subst c.
  - rewrite (addToCart_inserts
               (InsertCartItem.mk userId productId
                  (Some (default (Some 1%Z) quantity))) now s He). simpl. split.
    + eexists. split; [reflexivity|]. split; [|done].
      apply elem_of_app. right. left.
    + rewrite filter_app, filter_cons_False, filter_nil, app_nil_r; [done|].
      simpl. by intros [].
Qed.

Lemma post_api_cart_within_own_cart_witness :
  (∃ row, (post_api_cart "bob" 3 (Some (Some 4%Z)) 50 Demo.store).1
          = reply_json (Some row)
          ∧ CartItem.userId row = "bob"
          ∧ CartItem.productId row = 3%Z)
  ∧ filter (λ c, CartItem.userId c ≠ "ada")
           (cartItems (post_api_cart "ada" 3 None 50 Demo.store).2)
    = filter (λ c, CartItem.userId c ≠ "ada") (cartItems Demo.store).
Proof.
  assert (Hfresh : cart_ids_fresh Demo.store).
  { split.
    - apply (bool_decide_unpack _). vm_compute. exact I.
    - repeat constructor. simpl. lia. }
  split.
  - destruct (proj1 (post_api_cart_within_own_cart "bob" 3 (Some (Some 4%Z)) 50
                       Demo.store Hfresh
                       ltac:(unfold Pg.int4; lia)
                       ltac:(unfold Pg.int4; simpl; lia)
                       ltac:(unfold Pg.int4_or_null, Pg.int4; simpl; lia)
                       ltac:(constructor;
                             [intros _; unfold Pg.int4; simpl; lia | constructor])))
      as (row & Hrow & _ & Huser & Hproduct & _).
    by exists row.
  - apply (proj2 (post_api_cart_within_own_cart "ada" 3 None 50
                    Demo.store Hfresh
                    ltac:(unfold Pg.int4; lia)
                    ltac:(unfold Pg.int4; simpl; lia)
                    ltac:(unfold Pg.int4_or_null, Pg.int4; simpl; lia)
                    ltac:(constructor;
                             [intros _; unfold Pg.int4; simpl; lia | constructor]))).
Defined.

(** ** Seller applications and the admin routes *)

Lemma admin_routes_refuse_other_callers_aux userId id newStatus now s :
  (∀ u, users s !! userId = Some u → User.role u ≠ "admin") →
  patch_api_admin_applications_id userId id newStatus now s
  = (res_status 403 "Admin access required", s).
Proof.
  intros Hrole. unfold patch_api_admin_applications_id, run, bind, getUser, gets.
  destruct (users s !! userId) as [u|]; [|done].
  by rewrite decide_True by by apply Hrole.
Qed.

(** X15. The admin routes check the role before anything else: for a
    caller without a user row, or with a role other than "admin",
    PATCH /api/admin/applications/:id and GET /api/admin/applications
    both answer 403 and the store is left as it was, so that no status and
    no role changes and no application is disclosed. *)
Theorem admin_routes_refuse_other_callers userId id newStatus now s :
  (∀ u, users s !! userId = Some u → User.role u ≠ "admin") →
  patch_api_admin_applications_id userId id newStatus now s
  = (res_status 403 "Admin access required", s)
  ∧ get_api_admin_applications userId s
    = (reply_status 403 "Admin access required", s).
Proof.
  intros Hrole.
  unfold patch_api_admin_applications_id, get_api_admin_applications,
    run, answer, bind, getUser, gets.
  destruct (users s !! userId) as [u|]; [|done].
  by rewrite !decide_True by by apply Hrole.
Qed.

Lemma admin_routes_refuse_other_callers_witness :
  patch_api_admin_applications_id "sam" 1 "approved" 60 Demo.store
  = (res_status 403 "Admin access required", Demo.store).
Proof.
  apply admin_routes_refuse_other_callers. intros u Hu. vm_compute in Hu.
  injection Hu as <-. discriminate.
Defined.

Lemma patch_by_admin adminId adminRow id newStatus now s :
  users s !! adminId = Some adminRow →
  User.role adminRow = "admin" →
  let r := patch_api_admin_applications_id adminId id newStatus now s in
  let application :=
    Js.first (SellerApplication.with_status (Some newStatus)
              <$> filter (λ a, SellerApplication.id a = id) (sellerApplications s)) in
  sellerApplications r.2
  = (λ a, if decide (SellerApplication.id a = id)
          then SellerApplication.with_status (Some newStatus) a else a)
    <$> sellerApplications s
  ∧ (newStatus ≠ "approved" →
       users r.2 = users s ∧ r.1 = res_json (OfApplication application))
  ∧ (newStatus = "approved" → ∀ a, application = Some a →
       users r.2 = <[SellerApplication.userId a :=
                      promoted (SellerApplication.userId a) now (users s)]> (users s)
       ∧ r.1 = res_json (OfApplication application))
  ∧ (newStatus = "approved" → application = None →
       users r.2 = users s
       ∧ r.1 = res_status 500 "Failed to update application").
Proof.
  intros Hadmin Hrole r application. subst r application.
  unfold patch_api_admin_applications_id, run, bind, getUser, gets.
  rewrite Hadmin. rewrite decide_False by (by intros []).
  unfold updateSellerApplicationStatus, update_where. simpl.
  destruct (decide (newStatus = "approved")) as [Heq|Hne].
  - destruct (Js.first _) as [a|]; simpl.
    + split; [done|]. split; [done|]. split; [|done].
      by intros _ a' [= <-].
    + split; [done|]. split; [done|]. by split.
  - simpl. split; [done|]. split; [done|]. by split.
Qed.



Lemma promoted_is_seller userId now us :
  User.role (promoted userId now us) = "seller"
  ∧ User.isApproved (promoted userId now us) = Some true.
Proof. unfold promoted. by destruct (us !! userId). Qed.

(** X17. A promotion is not taken back: once an admin has approved the
    application of another user, setting the status of that application to
    anything else changes the status and leaves the users table alone, so
    the applicant still has role "seller" and isApproved true. *)
Theorem later_status_keeps_promotion
    adminId adminRow id otherStatus now1 now2 s a :
  users s !! adminId = Some adminRow →
  User.role adminRow = "admin" →
  Js.first (filter (λ x, SellerApplication.id x = id) (sellerApplications s))
    = Some a →
  SellerApplication.userId a ≠ adminId →
  otherStatus ≠ "approved" →
  let s1 := (patch_api_admin_applications_id adminId id "approved" now1 s).2 in
  let s2 := (patch_api_admin_applications_id adminId id otherStatus now2 s1).2 in
  users s2 = users s1
  ∧ (∃ u, users s2 !! SellerApplication.userId a = Some u
          ∧ User.role u = "seller" ∧ User.isApproved u = Some true)
  ∧ Forall (λ x, SellerApplication.id x = id →
                 SellerApplication.status x = Some otherStatus)
           (sellerApplications s2).
Proof.
  intros Hadmin Hrole Ha Hother Hstatus s1 s2.
  destruct (patch_by_admin adminId adminRow id "approved" now1 s Hadmin Hrole)
    as (Happs1 & _ & Happroved & _).
  assert (Hfirst : Js.first (SellerApplication.with_status (Some "approved")
                             <$> filter (λ x, SellerApplication.id x = id)
                                        (sellerApplications s))
                   = Some (SellerApplication.with_status (Some "approved") a)).
  { unfold Js.first in *. destruct (filter _ (sellerApplications s)); [done|].
    by injection Ha as ->. }
  destruct (Happroved eq_refl _ Hfirst) as [Husers1 _]. simpl in Husers1.
  fold s1 in Happs1, Husers1.
  assert (Hadmin1 : users s1 !! adminId = Some adminRow).
  { rewrite Husers1. by rewrite lookup_insert_ne. }
  destruct (patch_by_admin adminId adminRow id otherStatus now2 s1 Hadmin1 Hrole)
    as (Happs2 & Hkept & _).
  destruct (Hkept Hstatus) as [Husers2 _]. fold s2 in Happs2, Husers2.
  split; [done|]. split.
  - exists (promoted (SellerApplication.userId a) now1 (users s)).
    rewrite Husers2, Husers1, lookup_insert_eq. split; [done|].
    apply promoted_is_seller.
  - rewrite Happs2. apply Forall_fmap, Forall_forall. intros x _. simpl.
    destruct (decide (SellerApplication.id x = id)); [done|]. by intros ?.
Qed.

Lemma later_status_keeps_promotion_witness :
  ∃ u, users (patch_api_admin_applications_id "root" 1 "rejected" 61
                (patch_api_admin_applications_id "root" 1 "approved" 60
                   Demo.store).2).2 !! "ada" = Some u
       ∧ User.role u = "seller" ∧ User.isApproved u = Some true.
Proof.
  apply (later_status_keeps_promotion "root" (Demo.user "root" "admin" None)
           1 "rejected" 60 61 Demo.store (Demo.application 1 "ada")
           eq_refl eq_refl eq_refl); discriminate.
Defined.

(** X18. An admin who approves an application of their own is written
    with role "seller" like any applicant, and is no admin any more: every
    later PATCH /api/admin/applications/:id of theirs answers 403 and
    changes nothing. *)
Theorem own_approval_ends_admin_access adminId adminRow id now s a :
  users s !! adminId = Some adminRow →
  User.role adminRow = "admin" →
  Js.first (filter (λ x, SellerApplication.id x = id) (sellerApplications s))
    = Some a →
  SellerApplication.userId a = adminId →
  let s1 := (patch_api_admin_applications_id adminId id "approved" now s).2 in
  (∃ u, users s1 !! adminId = Some u ∧ User.role u = "seller")
  ∧ ∀ id' newStatus now',
      patch_api_admin_applications_id adminId id' newStatus now' s1
      = (res_status 403 "Admin access required", s1).
Proof.
  intros Hadmin Hrole Ha Hown s1.
  destruct (patch_by_admin adminId adminRow id "approved" now s Hadmin Hrole)
    as (_ & _ & Happroved & _).
  assert (Hfirst : Js.first (SellerApplication.with_status (Some "approved")
                             <$> filter (λ x, SellerApplication.id x = id)
                                        (sellerApplications s))
                   = Some (SellerApplication.with_status (Some "approved") a)).
  { unfold Js.first in *. destruct (filter _ (sellerApplications s)); [done|].
    by injection Ha as ->. }
  destruct (Happroved eq_refl _ Hfirst) as [Husers1 _]. simpl in Husers1.
  fold s1 in Husers1. rewrite Hown in Husers1.
  assert (Hrow : users s1 !! adminId = Some (promoted adminId now (users s)))
    by by rewrite Husers1, lookup_insert_eq.
  split.
  - eexists. split; [exact Hrow|]. apply promoted_is_seller.
  - intros id' newStatus now'.
    apply admin_routes_refuse_other_callers_aux. intros u Hu.
    rewrite Hrow in Hu. injection Hu as <-.
    by rewrite (proj1 (promoted_is_seller _ _ _)).
Qed.

Lemma own_approval_ends_admin_access_witness :
  patch_api_admin_applications_id "root" 1 "rejected" 61
    (patch_api_admin_applications_id "root" 1 "approved" 60
       (set_sellerApplications (λ _, [Demo.application 1 "root"]) Demo.store)).2
  = (res_status 403 "Admin access required",
     (patch_api_admin_applications_id "root" 1 "approved" 60
        (set_sellerApplications (λ _, [Demo.application 1 "root"]) Demo.store)).2).
Proof.
  apply (own_approval_ends_admin_access "root" (Demo.user "root" "admin" None)
           1 60 (set_sellerApplications (λ _, [Demo.application 1 "root"])
                   Demo.store)
           (Demo.application 1 "root") eq_refl eq_refl eq_refl eq_refl).
Defined.

Lemma desc_by_refl {A} (key : A → option Z) x : desc_by key x x.
Proof. unfold desc_by. destruct (key x); simpl; [lia|done]. Qed.

(** X19. getUserSellerApplication, and GET /api/seller-applications/me
    with it, answers undefined exactly when the user has no application;
    otherwise it answers an application of that user that sorts first by
    createdAt descending among all the applications of the user: none of
    them is more recent. *)
Theorem getUserSellerApplication_most_recent userId s :
  ∃ found,
    getUserSellerApplication userId s = (inr found, s)
    ∧ get_api_seller_applications_me userId s
      = (res_json (OfApplication found), s)
    ∧ match found with
      | None =>
          Forall (λ a, SellerApplication.userId a ≠ userId) (sellerApplications s)
      | Some a =>
          a ∈ sellerApplications s
          ∧ SellerApplication.userId a = userId
          ∧ Forall (λ b, SellerApplication.userId b = userId →
                         desc_by SellerApplication.createdAt a b)
                   (sellerApplications s)
      end.
Proof.
  eexists. split; [reflexivity|]. split; [reflexivity|].
  pose proof (orderBy_desc_perm SellerApplication.createdAt
                (filter (λ a, SellerApplication.userId a = userId)
                        (sellerApplications s))) as Hperm.
  pose proof (orderBy_desc_sorted SellerApplication.createdAt
                (filter (λ a, SellerApplication.userId a = userId)
                        (sellerApplications s))) as Hsorted.
  destruct (orderBy_desc _ _) as [|a l]; simpl.
  - apply Permutation_nil_l in Hperm. apply Forall_forall. intros b Hb Hu.
    by apply (filter_nil_not_elem_of (λ a, SellerApplication.userId a = userId)
                 (sellerApplications s) b).
  - assert (Ha : a ∈ filter (λ a, SellerApplication.userId a = userId)
                        (sellerApplications s))
      by (rewrite <-Hperm; left).
    apply list_elem_of_filter in Ha as [Hu Ha]. split; [done|]. split; [done|].
    apply Forall_forall. intros b Hb Hbu.
    assert (Hin : b ∈ a :: l).
    { rewrite Hperm. by apply list_elem_of_filter. }
    apply elem_of_cons in Hin as [->|Hin]; [apply desc_by_refl|].
    apply StronglySorted_inv in Hsorted as [_ Hall].
    by apply (proj1 (Forall_forall _ _) Hall).
Qed.

(** ** Full store: applications, validation, categories, orders *)


(** X20. POST /api/seller-applications with a body that passes the
    schema appends one application and answers with it. The application
    belongs to the identity of the session, whatever userId the body
    carried; its status is the one of the body, "pending" when the body has
    none; and no user row changes, whatever that status is. *)
Theorem post_seller_application_owner userId body now w applicationData :
  insertSellerApplicationSchema_parse body = Full.ret applicationData →
  ∃ application w',
    post_api_seller_applications userId body now w
    = (res_json (OfApplication (Some application)), w')
    ∧ sellerApplications (Full.db w')
      = sellerApplications (Full.db w) ++ [application]
    ∧ SellerApplication.userId application = userId
    ∧ SellerApplication.status application
      = default (Some "pending") (InsertSellerApplication.status applicationData)
    ∧ users (Full.db w') = users (Full.db w).
Proof.
  intros Hparse. unfold post_api_seller_applications, Full.bind.
  rewrite Hparse. simpl. do 2 eexists. split; [reflexivity|]. by simpl.
Qed.

Lemma post_seller_application_owner_witness :
  ∃ application w',
    post_api_seller_applications "bob" Demo2.application_body 99 Demo2.store
    = (res_json (OfApplication (Some application)), w')
    ∧ SellerApplication.userId application = "bob"
    ∧ SellerApplication.status application = Some "approved"
    ∧ users (Full.db w') = users (Full.db Demo2.store).
Proof.
  destruct (post_seller_application_owner "bob" Demo2.application_body 99
              Demo2.store _ eq_refl)
    as (application & w' & Hrun & _ & Hu & Hs & Hus).
  by exists application, w'.
Defined.

(** X21. A body that the insert schema refuses is answered with status
    500, not with a validation error, and nothing is written. This is so
    for POST /api/products by a seller or an admin when a required field is
    missing, sellerId included although the handler overwrites it, and for
    POST /api/seller-applications, userId included. *)
Theorem refused_bodies_answer_500 :
  (∀ userId user body now s,
     users s !! userId = Some user →
     User.role user = "seller" ∨ User.role user = "admin" →
     ProductBody.name body = None ∨ ProductBody.description body = None
     ∨ ProductBody.price body = None ∨ ProductBody.imageUrl body = None
     ∨ ProductBody.sellerId body = None ∨ ProductBody.categoryId body = None →
     post_api_products userId body now s
     = (res_status 500 "Failed to create product", s))
  ∧ (∀ userId body now w,
       ApplicationBody.userId body = None ∨ ApplicationBody.email body = None
       ∨ ApplicationBody.whatsapp body = None
       ∨ ApplicationBody.paymentInfo body = None →
       post_api_seller_applications userId body now w
       = (res_status 500 "Failed to create seller application", w)).
Proof.
  split.
  - intros userId user body now s Hu Hrole Hmissing.
    unfold post_api_products, run, bind, getUser, gets. rewrite Hu.
    rewrite decide_False by (intros [? ?]; by destruct Hrole).
    assert (Hparse : insertProductSchema_parse body = throw ZodError).
    { unfold insertProductSchema_parse.
      destruct body as [[?|] [?|] [?|] [?|] [?|] [?|] ? ?]; simpl in *;
        try done; exfalso; intuition discriminate. }
    by rewrite Hparse.
  - intros userId body now w Hmissing.
    unfold post_api_seller_applications, Full.bind.
    assert (Hparse : insertSellerApplicationSchema_parse body = Full.throw ZodError).
    { unfold insertSellerApplicationSchema_parse.
      destruct body as [[?|] [?|] [?|] [?|] ?]; simpl in *;
        try done; exfalso; intuition discriminate. }
    by rewrite Hparse.
Qed.

Lemma refused_bodies_answer_500_witness :
  post_api_products "sam"
    (ProductBody.mk (Some "Lamp") (Some "A desk lamp") (Some "19.99")
       (Some "/img/lamp.png") None (Some 2%Z) None None) 80 Demo.store
  = (res_status 500 "Failed to create product", Demo.store).
Proof.
  apply (proj1 refused_bodies_answer_500 "sam"
           (Demo.user "sam" "seller" (Some "sam@example.org")));
    [reflexivity | by left | by do 4 right; left].
Defined.

(** X22. The admin listing: for a caller whose role is "admin",
    GET /api/admin/applications answers 200 with all the applications of
    the table, each once, in descending order of createdAt, and writes
    nothing. *)
Theorem admin_lists_every_application adminId adminRow s :
  users s !! adminId = Some adminRow →
  User.role adminRow = "admin" →
  ∃ listed, get_api_admin_applications adminId s = (reply_json listed, s)
    ∧ listed ≡ₚ sellerApplications s
    ∧ StronglySorted (desc_by SellerApplication.createdAt) listed.
Proof.
  intros Hadmin Hrole.
  unfold get_api_admin_applications, answer, bind, getUser, gets.
  rewrite Hadmin. rewrite decide_False by (by intros []).
  eexists. split; [reflexivity|]. split.
  - apply orderBy_desc_perm.
  - apply orderBy_desc_sorted.
Qed.

Lemma admin_lists_every_application_witness :
  ∃ listed, get_api_admin_applications "root" Demo.store
            = (reply_json listed, Demo.store)
    ∧ listed ≡ₚ sellerApplications Demo.store.
Proof.
  destruct (admin_lists_every_application "root" (Demo.user "root" "admin" None)
              Demo.store eq_refl eq_refl) as (listed & Hrun & Hperm & _).
  by exists listed.
Defined.

(** X23. createCategory keeps the names and the slugs of the categories
    unique: a category whose name or slug is taken is refused with a
    uniqueness violation and the table stays as it was; otherwise the
    category is appended with the next id. *)
Theorem createCategory_unique_name_and_slug category w :
  let r := FullStorage.createCategory category w in
  let name_taken :=
    Exists (λ c, Category.name c = InsertCategory.name category) (Full.categories w) in
  let slug_taken :=
    Exists (λ c, Category.slug c = InsertCategory.slug category) (Full.categories w) in
  (name_taken ∨ slug_taken →
     (∃ c, r.1 = inl (UniqueViolation c))
     ∧ Full.categories r.2 = Full.categories w)
  ∧ (¬ name_taken → ¬ slug_taken →
       r.1 = inr (Category.mk (Full.categories_id_seq w + 1)
                    (InsertCategory.name category) (InsertCategory.slug category)
                    (InsertCategory.color category) (InsertCategory.icon category))
       ∧ Full.categories r.2
         = Full.categories w
           ++ [Category.mk (Full.categories_id_seq w + 1)
                 (InsertCategory.name category) (InsertCategory.slug category)
                 (InsertCategory.color category) (InsertCategory.icon category)])
  ∧ (NoDup (Category.name <$> Full.categories w) →
     NoDup (Category.slug <$> Full.categories w) →
     NoDup (Category.name <$> Full.categories r.2)
     ∧ NoDup (Category.slug <$> Full.categories r.2)).
Proof.
  intros r name_taken slug_taken. subst r name_taken slug_taken.
  unfold FullStorage.createCategory.
  destruct (decide (Exists (λ c, Category.name c = InsertCategory.name category)
                           (Full.categories w))) as [Hn|Hn];
    [|destruct (decide (Exists (λ c, Category.slug c = InsertCategory.slug category)
                               (Full.categories w))) as [Hs|Hs]];
    simpl.
  - split; [split; [by eexists|done]|]. split; [done|]. by intros.
  - split; [split; [by eexists|done]|]. split; [done|]. by intros.
  - split; [by intros [?|?]|]. split; [done|]. intros Hnames Hslugs.
    rewrite !fmap_app. split; apply NoDup_app; simpl.
    + split; [done|]. split; [|apply NoDup_singleton].
      intros x Hx ->%list_elem_of_singleton. destruct Hn.
      apply list_elem_of_fmap in Hx as (c & Hc & Hin).
      apply Exists_exists. by exists c.
    + split; [done|]. split; [|apply NoDup_singleton].
      intros x Hx ->%list_elem_of_singleton. destruct Hs.
      apply list_elem_of_fmap in Hx as (c & Hc & Hin).
      apply Exists_exists. by exists c.
Qed.

Lemma createCategory_unique_name_and_slug_witness :
  (∃ c, (FullStorage.createCategory
           (InsertCategory.mk "Gentlemen" "men" "#000000" "fas fa-hat") Demo2.store).1
        = inl (UniqueViolation c))
  ∧ Full.categories
      (FullStorage.createCategory
         (InsertCategory.mk "Gentlemen" "men" "#000000" "fas fa-hat") Demo2.store).2
    = Full.categories Demo2.store.
Proof.
  apply (proj1 (createCategory_unique_name_and_slug
                  (InsertCategory.mk "Gentlemen" "men" "#000000" "fas fa-hat")
                  Demo2.store)).
  right. by left.
Defined.

Lemma getCategories_length (collate : relation string)
    `{∀ x y, Decision (collate x y)} w :
  ∃ listed, FullStorage.getCategories collate w = (inr listed, w)
    ∧ listed ≡ₚ Full.categories w.
Proof. eexists. split; [reflexivity|]. apply merge_sort_Permutation. Qed.

Lemma initializeCategories_nonempty (collate : relation string)
    `{∀ x y, Decision (collate x y)} w :
  Full.categories w ≠ [] → initializeCategories collate w = w.
Proof.
  intros Hne. unfold initializeCategories, Full.bind.
  destruct (getCategories_length collate w) as (listed & -> & Hperm).
  rewrite decide_False; [done|]. intros Hlen.
  apply length_zero_iff_nil in Hlen. subst listed.
  by apply Permutation_nil_l in Hperm.
Qed.

(** X24. initializeCategories seeds once: on a table that has a category
    it changes nothing; on an empty table it inserts the six default
    categories, in the order of the source; and running it a second time
    never changes what the first run left, whatever the collation that
    orders the names. *)
Theorem initializeCategories_seeds_once (collate : relation string)
    `{∀ x y, Decision (collate x y)} w :
  (Full.categories w ≠ [] → initializeCategories collate w = w)
  ∧ (Full.categories w = [] →
       Category.name <$> Full.categories (initializeCategories collate w)
       = ["Men"; "Women"; "Gadgets"; "Clothing"; "Jewelry"; "Gifts"]
       ∧ Category.slug <$> Full.categories (initializeCategories collate w)
         = ["men"; "women"; "gadgets"; "clothing"; "jewelry"; "gifts"]
       ∧ Full.db (initializeCategories collate w) = Full.db w)
  ∧ initializeCategories collate (initializeCategories collate w)
    = initializeCategories collate w.
Proof.
  assert (Hempty : Full.categories w = [] →
            Category.name <$> Full.categories (initializeCategories collate w)
            = ["Men"; "Women"; "Gadgets"; "Clothing"; "Jewelry"; "Gifts"]
            ∧ Category.slug <$> Full.categories (initializeCategories collate w)
              = ["men"; "women"; "gadgets"; "clothing"; "jewelry"; "gifts"]
            ∧ Full.db (initializeCategories collate w) = Full.db w).
  { intros Hnil. unfold initializeCategories, Full.bind.
    destruct (getCategories_length collate w) as (listed & -> & Hperm).
    rewrite Hnil in Hperm. apply Permutation_nil_r in Hperm. subst listed.
    destruct w as [s cs os n1 n2 n3]. simpl in Hnil. subst cs.
    by vm_compute. }
  split; [apply initializeCategories_nonempty|]. split; [done|].
  destruct (Full.categories w) as [|c cs] eqn:Hcs.
  - apply initializeCategories_nonempty.
    destruct (Hempty eq_refl) as [Hnames _]. intros Hnil.
    by rewrite Hnil in Hnames.
  - f_equal. apply initializeCategories_nonempty. by rewrite Hcs.
Qed.

Lemma initializeCategories_seeds_once_witness :
  initializeCategories Demo2.bytewise Demo2.store = Demo2.store
  ∧ length (Full.categories (initializeCategories Demo2.bytewise Full.initial)) = 6.
Proof.
  split.
  - apply (proj1 (initializeCategories_seeds_once Demo2.bytewise Demo2.store)).
    discriminate.
  - destruct (proj1 (proj2 (initializeCategories_seeds_once Demo2.bytewise
                              Full.initial)) eq_refl) as [Hnames _].
    apply (f_equal length) in Hnames. by rewrite length_fmap in Hnames.
Defined.

(** X25. POST /api/orders with a complete body whose values the columns
    take as they are (a product id and a quantity within four bytes, a
    total price written with two decimals that [decimal(10, 2)] holds, a
    next order id within the column) inserts one order and answers with
    it: the buyer is the identity of the session, the seller is the
    sellerId of the body as sent, the quantity and the total price are
    those of the body, the status is "pending", and no other table is
    read or written. The order is then listed by
    getUserOrders for the buyer and by getSellerOrders for that seller,
    and the orders listed for any other buyer are as before. When the body
    lacks one of the four fields, the answer is 500 and no order is
    stored. *)
Theorem post_api_orders_buyer_and_seller
    userId productId quantity totalPrice sellerId now w :
  Pg.int4 productId →
  Pg.int4 quantity →
  Pg.decimal_10_2 totalPrice →
  Pg.int4 (Full.orders_id_seq w + 1) →
  (∃ order w',
     post_api_orders userId (Some productId) (Some quantity) (Some totalPrice)
                     (Some sellerId) now w
     = (reply_json order, w')
     ∧ Order.userId order = userId
     ∧ Order.sellerId order = sellerId
     ∧ Order.quantity order = quantity
     ∧ Order.totalPrice order = totalPrice
     ∧ Order.status order = Some "pending"
     ∧ Full.orders w' = Full.orders w ++ [order]
     ∧ Full.db w' = Full.db w
     ∧ (∃ listed, FullStorage.getUserOrders userId w' = (inr listed, w')
                  ∧ order ∈ listed)
     ∧ (∃ listed, FullStorage.getSellerOrders sellerId w' = (inr listed, w')
                  ∧ order ∈ listed)
     ∧ ∀ other, other ≠ userId →
         (FullStorage.getUserOrders other w').1
         = (FullStorage.getUserOrders other w).1)
  ∧ ∀ productId' quantity' totalPrice' sellerId',
      productId' = None ∨ quantity' = None ∨ totalPrice' = None
      ∨ sellerId' = None →
      (post_api_orders userId productId' quantity' totalPrice' sellerId' now w).1
      = reply_status 500 "Failed to create order"
      ∧ Full.orders (post_api_orders userId productId' quantity' totalPrice'
                       sellerId' now w).2
        = Full.orders w.
Proof.
  intros _ _ _ _. split.
  - do 2 eexists. split; [reflexivity|]. simpl.
    repeat split; try done.
    + eexists. split; [reflexivity|]. simpl.
      rewrite orderBy_desc_perm. apply list_elem_of_filter. split; [done|].
      apply elem_of_app. right. left.
    + eexists. split; [reflexivity|]. simpl.
      rewrite orderBy_desc_perm. apply list_elem_of_filter. split; [done|].
      apply elem_of_app. right. left.
    + intros other Hother. unfold FullStorage.getUserOrders, Full.gets. simpl.
      do 2 f_equal.
      rewrite filter_app, filter_cons_False, filter_nil, app_nil_r; [done|].
      simpl. congruence.
  - intros productId' quantity' totalPrice' sellerId' Hmissing.
    unfold post_api_orders, answer, Full.bind.
    destruct productId', quantity', totalPrice', sellerId'; simpl;
      try done; exfalso; intuition discriminate.
Qed.

Lemma post_api_orders_buyer_and_seller_witness :
  (∃ order w',
     post_api_orders "ada" (Some 1%Z) (Some 2%Z) (Some "39.98") (Some "sam") 99
                     Demo2.store
     = (reply_json order, w')
     ∧ Order.userId order = "ada"
     ∧ Order.sellerId order = "sam"
     ∧ Order.totalPrice order = "39.98")
  ∧ (post_api_orders "ada" (Some 1%Z) None (Some "39.98") (Some "sam") 99
       Demo2.store).1
    = reply_status 500 "Failed to create order".
Proof.
  pose proof (post_api_orders_buyer_and_seller "ada" 1 2 "39.98" "sam" 99
                Demo2.store
                ltac:(unfold Pg.int4; lia)
                ltac:(unfold Pg.int4; lia)
                ltac:(apply (bool_decide_unpack _); vm_compute; exact I)
                ltac:(unfold Pg.int4; simpl; lia))
    as [(order & w' & Hrun & Huser & Hseller & _ & Hprice & _) Hmissing].
  split.
  - by exists order, w'.
  - apply (Hmissing (Some 1%Z) None (Some "39.98") (Some "sam")).
    right. by left.
Defined.


